(** * luddite.v2: the service core (service.go)

    A shallow embedding of [service.go]: service construction
    ([NewService]), the handler list and middleware chain ([AddHandler]),
    the registration of singleton and collection resources, [Stats] and
    [Run].  The service is a record passed explicitly from call to call;
    the caller-supplied [*ServiceConfig] lives in a store of configuration
    cells, because [NewService] writes through that pointer. *)

From Stdlib Require Import ZArith.
From stdpp Require Import base gmap strings list pretty.

Open Scope Z_scope.

(** ** Configuration (the fields of [ServiceConfig] that service.go reads) *)

Record LogConfig := { Log_Prefix : string }.

Record MetricsConfig := {
  Metrics_Enabled : bool;
  Metrics_Server : string;
  Metrics_Prefix : string;
  Metrics_Interval : Z          (* time.Duration, in nanoseconds *)
}.

Record SchemaConfig := {
  Schema_Enabled : bool;
  Schema_UriPath : string;
  Schema_FilePath : string;
  Schema_FilePattern : string;
  Schema_RootRedirect : bool
}.

Record TransportConfig := {
  Transport_TLS : bool;
  Transport_CertFilePath : string;
  Transport_KeyFilePath : string
}.

Record VersionConfig := { Version_Min : Z; Version_Max : Z }.

Record ServiceConfig := {
  Addr : string;
  Log : LogConfig;
  Metrics : MetricsConfig;
  Schema : SchemaConfig;
  Transport : TransportConfig;
  Version : VersionConfig
}.

(** A [*ServiceConfig] is an address in a store of configuration cells.
    An address with no cell stands for the nil pointer. *)
Definition loc := positive.
Abbreviation heap := (gmap loc ServiceConfig).

(** ** Constants *)

Definition time_Second : Z := 1000000000.

Definition DEFAULT_STATSD_SERVER : string := "127.0.0.1:8125".
Definition DEFAULT_STATSD_PREFIX : string := "%HOST%.".
Definition DEFAULT_STATSD_INTERVAL : Z := 2 * time_Second.

Definition StatusTemporaryRedirect : Z := 307.
Definition StatusNotFound : Z := 404.
Definition StatusMethodNotAllowed : Z := 405.

(** ** Errors and results *)

Definition error := string.

(** A Go pair [(T, error)] of which exactly one side is set. *)
Inductive result (A : Type) : Type :=
| Ok (a : A)
| Err (e : error).
Arguments Ok {A} a.
Arguments Err {A} e.

(** ** Computations over the configuration store

    A computation reads and writes configuration cells and either returns a
    value with the new store, or stops on a nil dereference ([None]). *)

Definition St (A : Type) : Type := heap -> option (A * heap).

Definition ret {A : Type} (a : A) : St A := fun h => Some (a, h).

Definition bind {A B : Type} (m : St A) (k : A -> St B) : St B :=
  fun h =>
    match m h with
    | Some (a, h') => k a h'
    | None => None
    end.

Notation "x <- c1 ;; c2" := (bind c1 (fun x => c2))
  (at level 100, c1 at next level, right associativity).
Notation "c1 ;;; c2" := (bind c1 (fun _ => c2))
  (at level 100, right associativity).

(** Read through a [*ServiceConfig]. *)
Definition deref (p : loc) : St ServiceConfig :=
  fun h =>
    match h !! p with
    | Some c => Some (c, h)
    | None => None
    end.

(** Write through a [*ServiceConfig]. *)
Definition modify (p : loc) (f : ServiceConfig -> ServiceConfig) : St unit :=
  fun h =>
    match h !! p with
    | Some c => Some (tt, <[p := f c]> h)
    | None => None
    end.

Definition when (b : bool) (m : St unit) : St unit :=
  if b then m else ret tt.

Definition set_Metrics_Server (v : string) (c : ServiceConfig) : ServiceConfig :=
  {| Addr := Addr c; Log := Log c;
     Metrics := {| Metrics_Enabled := Metrics_Enabled (Metrics c);
                   Metrics_Server := v;
                   Metrics_Prefix := Metrics_Prefix (Metrics c);
                   Metrics_Interval := Metrics_Interval (Metrics c) |};
     Schema := Schema c; Transport := Transport c; Version := Version c |}.

Definition set_Metrics_Prefix (v : string) (c : ServiceConfig) : ServiceConfig :=
  {| Addr := Addr c; Log := Log c;
     Metrics := {| Metrics_Enabled := Metrics_Enabled (Metrics c);
                   Metrics_Server := Metrics_Server (Metrics c);
                   Metrics_Prefix := v;
                   Metrics_Interval := Metrics_Interval (Metrics c) |};
     Schema := Schema c; Transport := Transport c; Version := Version c |}.

Definition set_Metrics_Interval (v : Z) (c : ServiceConfig) : ServiceConfig :=
  {| Addr := Addr c; Log := Log c;
     Metrics := {| Metrics_Enabled := Metrics_Enabled (Metrics c);
                   Metrics_Server := Metrics_Server (Metrics c);
                   Metrics_Prefix := Metrics_Prefix (Metrics c);
                   Metrics_Interval := v |};
     Schema := Schema c; Transport := Transport c; Version := Version c |}.

(** ** Loggers and statsd *)

(** [log.New(os.Stderr, prefix, flags)]. *)
Record Logger := { log_prefix : string; log_flags : Z }.

Definition log_LstdFlags : Z := 3.

Definition log_New (prefix : string) (flags : Z) : Logger :=
  {| log_prefix := prefix; log_flags := flags |}.

Record StatsdClient := { statsd_server : string; statsd_prefix : string }.

Definition NewStatsdClient (server prefix : string) : StatsdClient :=
  {| statsd_server := server; statsd_prefix := prefix |}.

Record StatsdBuffer := {
  buffer_interval : Z;
  buffer_client : option StatsdClient;
  buffer_Logger : option Logger
}.

Definition NewStatsdBuffer (interval : Z) (client : option StatsdClient)
  : StatsdBuffer :=
  {| buffer_interval := interval; buffer_client := client; buffer_Logger := None |}.

Definition set_buffer_Logger (l : Logger) (b : StatsdBuffer) : StatsdBuffer :=
  {| buffer_interval := buffer_interval b;
     buffer_client := buffer_client b;
     buffer_Logger := Some l |}.

(** The dynamic types behind a [Stats] interface value. *)
Inductive StatsImpl :=
| BufferStats (b : StatsdBuffer)
| NullStats.

(** A [Stats] interface value; [None] is the nil interface. *)
Definition Stats := option StatsImpl.

Definition nullStats : StatsImpl := NullStats.

(** ** Requests and responses *)

Record Request := { Method : string; URLPath : string }.

(** An [http.ResponseWriter] as the state a handler transforms. *)
Record ResponseWriter := {
  rw_status : option Z;
  rw_header : list (string * string);
  rw_body : string
}.

Definition freshResponse : ResponseWriter :=
  {| rw_status := None; rw_header := []; rw_body := "" |}.

(** [rw.WriteHeader(code)]: the first status written is the one sent. *)
Definition WriteHeader (code : Z) (rw : ResponseWriter) : ResponseWriter :=
  match rw_status rw with
  | Some _ => rw
  | None => {| rw_status := Some code;
               rw_header := rw_header rw;
               rw_body := rw_body rw |}
  end.

(** The value of a response header, if it is set. *)
Fixpoint header_get (k : string) (hs : list (string * string)) : option string :=
  match hs with
  | [] => None
  | (k', v) :: rest => if String.eqb k k' then Some v else header_get k rest
  end.

(** [rw.Header().Set(k, v)]: the value replaces any earlier one for [k]. *)
Fixpoint header_del (k : string) (hs : list (string * string)) : list (string * string) :=
  match hs with
  | [] => []
  | (k', v) :: rest =>
      if String.eqb k k' then header_del k rest else (k', v) :: header_del k rest
  end.

Definition Header_Set (k v : string) (rw : ResponseWriter) : ResponseWriter :=
  {| rw_status := rw_status rw;
     rw_header := (k, v) :: header_del k (rw_header rw);
     rw_body := rw_body rw |}.

(** The segments of a path: what stands between its slashes. *)
Fixpoint split_path (s : string) (cur : string) : list string :=
  match s with
  | EmptyString => [cur]
  | String c s' =>
      if String.eqb (String c "") "/" then cur :: split_path s' ""
      else split_path s' (cur +:+ String c "")
  end.

Definition segments (p : string) : list string := split_path p "".

(** ** The default middleware handlers' data *)

Record Bottom := {
  bottom_config : loc;
  bottom_logger : Logger;
  bottom_stats : Stats
}.

Definition NewBottom (config : loc) (logger : Logger) (stats : Stats) : Bottom :=
  {| bottom_config := config; bottom_logger := logger; bottom_stats := stats |}.

Record Negotiator := { acceptedContentTypes : list string }.

Definition NewNegotiator (acceptedContentTypes : list string) : Negotiator :=
  {| acceptedContentTypes := acceptedContentTypes |}.

(** The version handler made by [NewContext(s, min, max)]; its pointer back
    to the service is left out of the record. *)
Record ContextHandler := { minVersion : Z; maxVersion : Z }.

Definition NewContext (minVersion maxVersion : Z) : ContextHandler :=
  {| minVersion := minVersion; maxVersion := maxVersion |}.

Record SchemaHandler := { schema_filePath : string; schema_filePattern : string }.

Definition NewSchemaHandler (filePath filePattern : string) : SchemaHandler :=
  {| schema_filePath := filePath; schema_filePattern := filePattern |}.

(** The operations of the [Resource] interface. *)
Inductive Operation :=
| OpList | OpGet | OpCreate | OpUpdate | OpDelete | OpAction.

(** ** Collaborators

    What service.go uses and does not define: the context and resource
    types, the content-type constants, [path.Join], the router's template
    matching, the behaviour of the three default handlers, of resource
    operations and of the schema handler, [http.Redirect] and the two
    blocking [http.ListenAndServe] calls (given by the [error] each returns,
    [None] for nil; the handler passed may be nil). *)
Class Collaborators := {
  Ctx : Type;
  Resource : Type;
  ContentTypeJson : string;
  ContentTypeXml : string;
  ContentTypeHtml : string;
  path_Join : string -> string -> string;
  path_matches : string -> string -> bool;
  Bottom_HandleHTTP :
    Bottom -> Ctx -> ResponseWriter -> Request ->
    (Ctx -> ResponseWriter -> Request -> ResponseWriter) -> ResponseWriter;
  Negotiator_HandleHTTP :
    Negotiator -> Ctx -> ResponseWriter -> Request ->
    (Ctx -> ResponseWriter -> Request -> ResponseWriter) -> ResponseWriter;
  ContextHandler_HandleHTTP :
    ContextHandler -> Ctx -> ResponseWriter -> Request ->
    (Ctx -> ResponseWriter -> Request -> ResponseWriter) -> ResponseWriter;
  Resource_serve :
    Resource -> Operation -> bool ->
    Ctx -> ResponseWriter -> Request -> ResponseWriter;
  SchemaHandler_ServeHTTP :
    SchemaHandler -> Ctx -> ResponseWriter -> Request -> ResponseWriter;
  http_Redirect : ResponseWriter -> Request -> string -> Z -> ResponseWriter;
  http_ListenAndServe :
    string -> option (Ctx -> ResponseWriter -> Request -> ResponseWriter) ->
    option error;
  http_ListenAndServeTLS :
    string -> string -> string ->
    option (Ctx -> ResponseWriter -> Request -> ResponseWriter) -> option error
}.

Section Service.

Context `{Collaborators}.

(** ** Handlers *)

(** [ContextHandlerFunc]: a handler's continuation. *)
Definition ContextHandlerFunc : Type :=
  Ctx -> ResponseWriter -> Request -> ResponseWriter.

(** The implementations of the [Handler] interface that service.go puts in
    the handler list; [HandlerFunc] adapts a function, and stands for any
    user handler. *)
Inductive Handler :=
| HBottom (b : Bottom)
| HNegotiator (n : Negotiator)
| HContext (c : ContextHandler)
| HandlerFunc
    (f : Ctx -> ResponseWriter -> Request -> ContextHandlerFunc -> ResponseWriter).

(** The interface method [HandleHTTP(ctx, rw, r, next)]. *)
Definition HandleHTTP (h : Handler)
  : Ctx -> ResponseWriter -> Request -> ContextHandlerFunc -> ResponseWriter :=
  match h with
  | HBottom b => Bottom_HandleHTTP b
  | HNegotiator n => Negotiator_HandleHTTP n
  | HContext c => ContextHandler_HandleHTTP c
  | HandlerFunc f => f
  end.

(** Modelled from the spec: [buildMiddleware] is in middleware.go, which is
    not among the sources.  Spec 4.1: the built chain executes [handlers[0]]
    with a continuation that executes [handlers[1]], and so on; the last
    handler's continuation is a no-op. *)
Fixpoint buildMiddleware (handlers : list Handler) : ContextHandlerFunc :=
  match handlers with
  | [] => fun _ rw _ => rw
  | h :: rest => fun ctx rw r => HandleHTTP h ctx rw r (buildMiddleware rest)
  end.

(** [hs] run in order around the continuation [k]. *)
Fixpoint chain (hs : list Handler) (k : ContextHandlerFunc) : ContextHandlerFunc :=
  match hs with
  | [] => k
  | h :: rest => fun ctx rw r => HandleHTTP h ctx rw r (chain rest k)
  end.

(** ** The router *)

(** What a route is bound to: an operation of a resource (the binding tuple
    of spec 3: resource, operation, idPresent), or a plain function. *)
Inductive Handle :=
| ResourceHandle (r : Resource) (op : Operation) (idPresent : bool)
| FuncHandle (f : ContextHandlerFunc).

Definition serveHandle (hd : Handle) : ContextHandlerFunc :=
  match hd with
  | ResourceHandle r op idPresent => Resource_serve r op idPresent
  | FuncHandle f => f
  end.

Record Route := { method : string; pattern : string; handle : Handle }.

Record Router := {
  routes : list Route;
  NotFound : option ContextHandlerFunc;
  MethodNotAllowed : option ContextHandlerFunc
}.

(** [httprouter.New()]. *)
Definition httprouter_New : Router :=
  {| routes := []; NotFound := None; MethodNotAllowed := None |}.

Definition set_NotFound (f : ContextHandlerFunc) (rt : Router) : Router :=
  {| routes := routes rt; NotFound := Some f; MethodNotAllowed := MethodNotAllowed rt |}.

Definition set_MethodNotAllowed (f : ContextHandlerFunc) (rt : Router) : Router :=
  {| routes := routes rt; NotFound := NotFound rt; MethodNotAllowed := Some f |}.

(** [router.Handle(method, path, handle)]: one more binding.  The router
    library's refusal of conflicting templates is not modelled. *)
Definition Router_Handle (m p : string) (hd : Handle) (rt : Router) : Router :=
  {| routes := routes rt ++ [ {| method := m; pattern := p; handle := hd |} ];
     NotFound := NotFound rt;
     MethodNotAllowed := MethodNotAllowed rt |}.

Definition Router_GET := Router_Handle "GET".
Definition Router_POST := Router_Handle "POST".
Definition Router_PUT := Router_Handle "PUT".
Definition Router_DELETE := Router_Handle "DELETE".

Definition route_matches (r : Request) (b : Route) : bool :=
  String.eqb (method b) (Method r) && path_matches (pattern b) (URLPath r).

Definition route_matches_path (r : Request) (b : Route) : bool :=
  path_matches (pattern b) (URLPath r).

(** The methods bound to the templates that match [r]'s path. *)
Definition allowed_methods (rt : Router) (r : Request) : list string :=
  map method (filter (fun b => route_matches_path r b = true) (routes rt)).

(** For each segment of [pattern], whether the path [p] has that very
    segment there (a literal match) or meets it through a parameter. *)
Definition literal_hits (pattern p : string) : list bool :=
  zip_with String.eqb (segments pattern) (segments p).

(** [a] goes before [b]: at the first position where they differ, [a] has
    the literal segment. *)
Fixpoint prefers (a b : list bool) : bool :=
  match a, b with
  | x :: a', y :: b' => if Bool.eqb x y then prefers a' b' else x
  | _, _ => false
  end.

Definition better (r : Request) (best c : Route) : Route :=
  if prefers (literal_hits (pattern c) (URLPath r))
             (literal_hits (pattern best) (URLPath r))
  then c else best.

(** Modelled from the spec: the choice among several matching bindings
    belongs to the httprouter library, which is not among the sources.
    Spec 4.5: a literal path segment takes precedence over a parameterized
    one at the same position. *)
Definition pick_route (r : Request) (candidates : list Route) : option Route :=
  match candidates with
  | [] => None
  | b :: rest => Some (fold_left (better r) rest b)
  end.

(** Modelled from the spec: [Router.HandleHTTP] belongs to the httprouter
    library, which is not among the sources.  Spec 4.6: the request's method
    and path are looked up among the registered bindings; a match runs the
    bound handle; when the path matches under other methods only, the
    response lists the permitted methods (its Allow header) and the router's
    [MethodNotAllowed] handler answers; when nothing matches, its [NotFound]
    handler answers.  An unset handler is the library's default plain 405 or
    404. *)
Definition Router_HandleHTTP (rt : Router) : ContextHandlerFunc :=
  fun ctx rw r =>
    match pick_route r (List.filter (route_matches r) (routes rt)) with
    | Some b => serveHandle (handle b) ctx rw r
    | None =>
        if existsb (route_matches_path r) (routes rt)
        then
          let rw := Header_Set "Allow" (String.concat ", " (allowed_methods rt r)) rw in
          match MethodNotAllowed rt with
          | Some f => f ctx rw r
          | None => WriteHeader StatusMethodNotAllowed rw
          end
        else match NotFound rt with
             | Some f => f ctx rw r
             | None => WriteHeader StatusNotFound rw
             end
    end.

(** ** The service *)

Record service := {
  config : loc;
  logger : Logger;
  router : Router;
  statsdClient : option StatsdClient;
  stats : option StatsdBuffer;
  handlers : list Handler;
  middleware : option ContextHandlerFunc;
  schema : option SchemaHandler
}.

Definition set_router (rt : Router) (s : service) : service :=
  {| config := config s; logger := logger s; router := rt;
     statsdClient := statsdClient s; stats := stats s;
     handlers := handlers s; middleware := middleware s; schema := schema s |}.

Definition set_statsdClient (c : StatsdClient) (s : service) : service :=
  {| config := config s; logger := logger s; router := router s;
     statsdClient := Some c; stats := stats s;
     handlers := handlers s; middleware := middleware s; schema := schema s |}.

Definition set_stats (b : StatsdBuffer) (s : service) : service :=
  {| config := config s; logger := logger s; router := router s;
     statsdClient := statsdClient s; stats := Some b;
     handlers := handlers s; middleware := middleware s; schema := schema s |}.

Definition set_handlers (hs : list Handler) (s : service) : service :=
  {| config := config s; logger := logger s; router := router s;
     statsdClient := statsdClient s; stats := stats s;
     handlers := hs; middleware := middleware s; schema := schema s |}.

Definition set_middleware (m : ContextHandlerFunc) (s : service) : service :=
  {| config := config s; logger := logger s; router := router s;
     statsdClient := statsdClient s; stats := stats s;
     handlers := handlers s; middleware := Some m; schema := schema s |}.

Definition set_schema (sh : SchemaHandler) (s : service) : service :=
  {| config := config s; logger := logger s; router := router s;
     statsdClient := statsdClient s; stats := stats s;
     handlers := handlers s; middleware := middleware s; schema := Some sh |}.

(** A write to a field of [*s.stats]; a nil [s.stats] stops the
    computation. *)
Definition modify_stats (f : StatsdBuffer -> StatsdBuffer) (s : service) : St service :=
  fun h =>
    match stats s with
    | Some b => Some (set_stats (f b) s, h)
    | None => None
    end.

(** *** Route registration for resources *)

(** A base path followed by one parameter segment, written as in spec 4.5:
    [basePath/{id}]. *)
Definition withParam (basePath name : string) : string :=
  basePath +:+ "/{" +:+ name +:+ "}".

(** Modelled from the spec: the six [add...Route] helpers are in
    resource.go, which is not among the sources.  Spec 4.5 and 3: each
    binds one (method, path template) pair to one operation of the resource;
    [withId] chooses the template with the [{id}] segment. *)
Definition addListRoute (rt : Router) (basePath : string) (r : Resource) : Router :=
  Router_GET basePath (ResourceHandle r OpList false) rt.

(** Modelled from the spec: see [addListRoute].  GET [basePath] or
    [basePath/{id}] is bound to [Get]. *)
Definition addGetRoute (rt : Router) (basePath : string) (withId : bool) (r : Resource)
  : Router :=
  Router_GET (if withId then withParam basePath "id" else basePath)
             (ResourceHandle r OpGet withId) rt.

(** Modelled from the spec: see [addListRoute].  POST [basePath] is bound
    to [Create]. *)
Definition addCreateRoute (rt : Router) (basePath : string) (r : Resource) : Router :=
  Router_POST basePath (ResourceHandle r OpCreate false) rt.

(** Modelled from the spec: see [addListRoute].  PUT [basePath] or
    [basePath/{id}] is bound to [Update]. *)
Definition addUpdateRoute (rt : Router) (basePath : string) (withId : bool) (r : Resource)
  : Router :=
  Router_PUT (if withId then withParam basePath "id" else basePath)
             (ResourceHandle r OpUpdate withId) rt.

(** Modelled from the spec: see [addListRoute].  DELETE [basePath] or
    [basePath/{id}] is bound to [Delete]. *)
Definition addDeleteRoute (rt : Router) (basePath : string) (withId : bool) (r : Resource)
  : Router :=
  Router_DELETE (if withId then withParam basePath "id" else basePath)
                (ResourceHandle r OpDelete withId) rt.

(** Modelled from the spec: see [addListRoute].  POST [basePath/{action}]
    or [basePath/{id}/{action}] is bound to [Action]. *)
Definition addActionRoute (rt : Router) (basePath : string) (withId : bool) (r : Resource)
  : Router :=
  Router_POST (withParam (if withId then withParam basePath "id" else basePath) "action")
              (ResourceHandle r OpAction withId) rt.

(** *** Methods of the service *)

Definition AddHandler (h : Handler) (s : service) : service :=
  let s := set_handlers (handlers s ++ [h]) s in
  set_middleware (buildMiddleware (handlers s)) s.

Definition AddSingletonResource (basePath : string) (r : Resource) (s : service)
  : service :=
  (* GET /basePath *)
  let s := set_router (addGetRoute (router s) basePath false r) s in
  (* PUT /basePath *)
  let s := set_router (addUpdateRoute (router s) basePath false r) s in
  (* POST /basePath/{action} *)
  set_router (addActionRoute (router s) basePath false r) s.

Definition AddCollectionResource (basePath : string) (r : Resource) (s : service)
  : service :=
  (* GET /basePath *)
  let s := set_router (addListRoute (router s) basePath r) s in
  (* GET /basePath/{id} *)
  let s := set_router (addGetRoute (router s) basePath true r) s in
  (* POST /basePath *)
  let s := set_router (addCreateRoute (router s) basePath r) s in
  (* PUT /basePath/{id} *)
  let s := set_router (addUpdateRoute (router s) basePath true r) s in
  (* DELETE /basePath *)
  let s := set_router (addDeleteRoute (router s) basePath false r) s in
  (* DELETE /basePath/{id} *)
  let s := set_router (addDeleteRoute (router s) basePath true r) s in
  (* POST /basePath/{id}/{action} *)
  set_router (addActionRoute (router s) basePath true r) s.

Definition service_Config (s : service) : loc := config s.

Definition service_Logger (s : service) : Logger := logger s.

Definition service_Router (s : service) : Router := router s.

Definition service_Stats (s : service) : Stats :=
  match stats s with
  | Some b => Some (BufferStats b)
  | None => Some nullStats
  end.

Definition newBottomHandler (s : service) : St (result Handler) :=
  ret (Ok (HBottom (NewBottom (config s) (logger s) (service_Stats s)))).

Definition newNegotiatorHandler (s : service) : St (result Handler) :=
  ret (Ok (HNegotiator
             (NewNegotiator [ContentTypeJson; ContentTypeXml; ContentTypeHtml]))).

Definition newContextHandler (s : service) : St (result Handler) :=
  c <- deref (config s);;
  if Version_Min (Version c) <? 1
  then ret (Err "service's minimum API version must be greater than zero")
  else
    c <- deref (config s);;
    if Version_Max (Version c) <? 1
    then ret (Err "service's maximum API version must be greater than zero")
    else
      c <- deref (config s);;
      ret (Ok (HContext (NewContext (Version_Min (Version c))
                                    (Version_Max (Version c))))).

(** The router handler ignores its continuation: dispatch goes on in the
    router. *)
Definition newRouterHandler (s : service) : St (result Handler) :=
  ret (Ok (HandlerFunc (fun ctx rw r _ => Router_HandleHTTP (router s) ctx rw r))).

(** The paths registered and the default schema path are computed when the
    routes are installed.  The root redirect's closure reads
    [config.Schema.UriPath] again each time it serves a request; a handler
    here is a function of the request and the response only and cannot see
    the store, so its closure carries the value read at installation, which
    is the value served as long as the caller leaves [Schema.UriPath] as it
    was. *)
Definition addSchemaRoutes (s : service) : St service :=
  c <- deref (config s);;
  let sh := NewSchemaHandler (Schema_FilePath (Schema c))
                             (Schema_FilePattern (Schema c)) in
  let s := set_schema sh s in
  let s := set_router
             (Router_GET (path_Join (Schema_UriPath (Schema c)) "/v:version")
                         (FuncHandle (SchemaHandler_ServeHTTP sh)) (router s)) s in
  let defaultSchemaPath :=
    path_Join (Schema_UriPath (Schema c))
              ("v" +:+ pretty (Version_Max (Version c))) in
  let s := set_router
             (Router_GET (Schema_UriPath (Schema c))
                (FuncHandle (fun _ rw r =>
                   http_Redirect rw r defaultSchemaPath StatusTemporaryRedirect))
                (router s)) s in
  if Schema_RootRedirect (Schema c)
  then ret (set_router
              (Router_GET "/"
                 (FuncHandle (fun _ rw r =>
                    http_Redirect rw r (Schema_UriPath (Schema c))
                                  StatusTemporaryRedirect))
                 (router s)) s)
  else ret s.

(** The block of [NewService] that creates the statsd client (metrics
    enabled): missing settings are written into the configuration cell. *)
Definition createStatsd (s : service) : St service :=
  c <- deref (config s);;
  if Metrics_Enabled (Metrics c) then
    (c <- deref (config s);;
     when (String.eqb (Metrics_Server (Metrics c)) "")
          (modify (config s) (set_Metrics_Server DEFAULT_STATSD_SERVER)));;;
    (c <- deref (config s);;
     when (String.eqb (Metrics_Prefix (Metrics c)) "")
          (modify (config s) (set_Metrics_Prefix DEFAULT_STATSD_PREFIX)));;;
    (c <- deref (config s);;
     when (Metrics_Interval (Metrics c) =? 0)
          (modify (config s) (set_Metrics_Interval DEFAULT_STATSD_INTERVAL)));;;
    c <- deref (config s);;
    let s := set_statsdClient
               (NewStatsdClient (Metrics_Server (Metrics c))
                                (Metrics_Prefix (Metrics c))) s in
    c <- deref (config s);;
    let s := set_stats (NewStatsdBuffer (Metrics_Interval (Metrics c))
                                        (statsdClient s)) s in
    modify_stats (set_buffer_Logger (logger s)) s
  else ret s.

Definition NewService (config : loc) : St (result service) :=
  (* Create service *)
  c <- deref config;;
  let s := {| config := config;
              logger := log_New (Log_Prefix (Log c)) log_LstdFlags;
              router := httprouter_New;
              statsdClient := None; stats := None;
              handlers := []; middleware := None; schema := None |} in
  let s := set_router
             (set_NotFound (fun _ rw _ => WriteHeader StatusNotFound rw) (router s)) s in
  let s := set_router
             (set_MethodNotAllowed
                (fun _ rw _ => WriteHeader StatusMethodNotAllowed rw) (router s)) s in
  (* Create the statsd client *)
  s <- createStatsd s;;
  (* Create default middleware handlers *)
  rb <- newBottomHandler s;;
  match rb with
  | Err err => ret (Err err)
  | Ok bottom =>
  rn <- newNegotiatorHandler s;;
  match rn with
  | Err err => ret (Err err)
  | Ok negotiator =>
  rc <- newContextHandler s;;
  match rc with
  | Err err => ret (Err err)
  | Ok context =>
  (* Build middleware stack *)
  let s := set_handlers [bottom; negotiator; context] s in
  let s := set_middleware (buildMiddleware (handlers s)) s in
  (* Install default http handlers *)
  c <- deref config;;
  s <- (if Schema_Enabled (Schema c) then addSchemaRoutes s else ret s);;
  ret (Ok s)
  end end end.

(** What [Run] does to the outside, in order. *)
Inductive Event :=
| EvPrintf (l : Logger) (msg : string)
| EvListenAndServe (addr : string) (h : option ContextHandlerFunc)
| EvListenAndServeTLS (addr certFile keyFile : string) (h : option ContextHandlerFunc)
| EvStatsClose (b : StatsdBuffer).

(** The deferred [s.stats.Close()], run when [Run] returns. *)
Definition deferred_Close (s : service) : list Event :=
  match stats s with
  | Some b => [EvStatsClose b]
  | None => []
  end.

(** [Run] gives the service it leaves behind, what it did, and the [error]
    it returns ([None] for nil); serving itself is the collaborators'
    [http_ListenAndServe]. *)
Definition Run (s : service) : St (service * list Event * option error) :=
  (* Add the router as the final middleware handler *)
  rh <- newRouterHandler s;;
  match rh with
  | Err err => ret (s, [], Some err)
  | Ok h =>
  let s := AddHandler h s in
  (* Arrange for shutdown of the buffered statsd client *)
  let deferred := deferred_Close s in
  (* Serve HTTP or HTTPS, depending on config *)
  c <- deref (config s);;
  if Transport_TLS (Transport c) then
    c <- deref (config s);;
    let ev1 := EvPrintf (logger s) ("HTTPS listening on " +:+ Addr c) in
    let ev2 := EvListenAndServeTLS (Addr c) (Transport_CertFilePath (Transport c))
                 (Transport_KeyFilePath (Transport c)) (middleware s) in
    ret (s, [ev1; ev2] ++ deferred,
         http_ListenAndServeTLS (Addr c) (Transport_CertFilePath (Transport c))
           (Transport_KeyFilePath (Transport c)) (middleware s))
  else
    c <- deref (config s);;
    let ev1 := EvPrintf (logger s) ("HTTP listening on " +:+ Addr c) in
    let ev2 := EvListenAndServe (Addr c) (middleware s) in
    ret (s, [ev1; ev2] ++ deferred,
         http_ListenAndServe (Addr c) (middleware s))
  end.

(** The handler that [newRouterHandler] makes for [s]. *)
Definition routerHandler (s : service) : Handler :=
  HandlerFunc (fun ctx rw r _ => Router_HandleHTTP (router s) ctx rw r).

(** What [Run] does before the deferred call: the log line and the blocking
    serve call, with the handler it serves. *)
Definition serveEvents (c : ServiceConfig) (s : service) : list Event :=
  if Transport_TLS (Transport c)
  then [ EvPrintf (logger s) ("HTTPS listening on " +:+ Addr c);
         EvListenAndServeTLS (Addr c) (Transport_CertFilePath (Transport c))
           (Transport_KeyFilePath (Transport c)) (middleware s) ]
  else [ EvPrintf (logger s) ("HTTP listening on " +:+ Addr c);
         EvListenAndServe (Addr c) (middleware s) ].

(** The error the serve call returns. *)
Definition serveError (c : ServiceConfig) (s : service) : option error :=
  if Transport_TLS (Transport c)
  then http_ListenAndServeTLS (Addr c) (Transport_CertFilePath (Transport c))
         (Transport_KeyFilePath (Transport c)) (middleware s)
  else http_ListenAndServe (Addr c) (middleware s).

(** *** The set-up phase

    Between construction and [Run] the service takes any sequence of these
    calls. *)
Inductive SetupCall :=
| CallAddHandler (h : Handler)
| CallAddSingletonResource (basePath : string) (r : Resource)
| CallAddCollectionResource (basePath : string) (r : Resource).

Definition setup_step (s : service) (c : SetupCall) : service :=
  match c with
  | CallAddHandler h => AddHandler h s
  | CallAddSingletonResource p r => AddSingletonResource p r s
  | CallAddCollectionResource p r => AddCollectionResource p r s
  end.

Definition setup (calls : list SetupCall) (s : service) : service :=
  fold_left setup_step calls s.

Definition AddHandlers (hs : list Handler) (s : service) : service :=
  fold_left (fun s h => AddHandler h s) hs s.

(** *** Reading a binding *)

Definition route_operation (b : Route) : option Operation :=
  match handle b with
  | ResourceHandle _ op _ => Some op
  | FuncHandle _ => None
  end.

Definition route_idPresent (b : Route) : bool :=
  match handle b with
  | ResourceHandle _ _ idPresent => idPresent
  | FuncHandle _ => false
  end.

(** *** The configuration after the metrics defaults are filled in,
    as the description of [NewService] words it. *)
Definition withMetricsDefaults (c : ServiceConfig) : ServiceConfig :=
  {| Addr := Addr c; Log := Log c;
     Metrics :=
       {| Metrics_Enabled := Metrics_Enabled (Metrics c);
          Metrics_Server :=
            if String.eqb (Metrics_Server (Metrics c)) ""
            then "127.0.0.1:8125" else Metrics_Server (Metrics c);
          Metrics_Prefix :=
            if String.eqb (Metrics_Prefix (Metrics c)) ""
            then "%HOST%." else Metrics_Prefix (Metrics c);
          Metrics_Interval :=
            if Metrics_Interval (Metrics c) =? 0
            then 2000000000 else Metrics_Interval (Metrics c) |};
     Schema := Schema c; Transport := Transport c; Version := Version c |}.

(** *** The steps of [NewService], written out *)

Definition fillServer (c : ServiceConfig) : ServiceConfig :=
  if String.eqb (Metrics_Server (Metrics c)) ""
  then set_Metrics_Server DEFAULT_STATSD_SERVER c else c.

Definition fillPrefix (c : ServiceConfig) : ServiceConfig :=
  if String.eqb (Metrics_Prefix (Metrics c)) ""
  then set_Metrics_Prefix DEFAULT_STATSD_PREFIX c else c.

Definition fillInterval (c : ServiceConfig) : ServiceConfig :=
  if Metrics_Interval (Metrics c) =? 0
  then set_Metrics_Interval DEFAULT_STATSD_INTERVAL c else c.

(** The service after the statsd block, when metrics are enabled in [c]. *)
Definition withStatsd (c : ServiceConfig) (s : service) : service :=
  let c' := withMetricsDefaults c in
  let cl := NewStatsdClient (Metrics_Server (Metrics c')) (Metrics_Prefix (Metrics c')) in
  set_stats (set_buffer_Logger (logger s)
               (NewStatsdBuffer (Metrics_Interval (Metrics c')) (Some cl)))
            (set_statsdClient cl s).

(** The service as [NewService] first creates it, with the router's two
    fallback handlers installed. *)
Definition baseService (p : loc) (c : ServiceConfig) : service :=
  {| config := p;
     logger := log_New (Log_Prefix (Log c)) log_LstdFlags;
     router := {| routes := [];
                  NotFound := Some (fun _ rw _ => WriteHeader StatusNotFound rw);
                  MethodNotAllowed :=
                    Some (fun _ rw _ => WriteHeader StatusMethodNotAllowed rw) |};
     statsdClient := None; stats := None;
     handlers := []; middleware := None; schema := None |}.

Definition afterStatsd (p : loc) (c : ServiceConfig) : service :=
  if Metrics_Enabled (Metrics c) then withStatsd c (baseService p c)
  else baseService p c.

(** The configuration cell and the store when [NewService] returns. *)
Definition configAfter (c : ServiceConfig) : ServiceConfig :=
  if Metrics_Enabled (Metrics c) then withMetricsDefaults c else c.

Definition storeAfter (p : loc) (c : ServiceConfig) (h : heap) : heap :=
  if Metrics_Enabled (Metrics c) then <[p := withMetricsDefaults c]> h else h.

(** The three default handlers, in the order [NewService] lists them. *)
Definition defaultHandlers (p : loc) (c : ServiceConfig) : list Handler :=
  [ HBottom (NewBottom p (log_New (Log_Prefix (Log c)) log_LstdFlags)
                       (service_Stats (afterStatsd p c)));
    HNegotiator (NewNegotiator [ContentTypeJson; ContentTypeXml; ContentTypeHtml]);
    HContext (NewContext (Version_Min (Version c)) (Version_Max (Version c))) ].

(** What holds of a service that [NewService] returned for the
    configuration [c] at address [p]. *)
Record constructed (p : loc) (c : ServiceConfig) (s : service) : Prop := {
  constructed_config : config s = p;
  constructed_logger : logger s = log_New (Log_Prefix (Log c)) log_LstdFlags;
  constructed_stats : stats s = stats (afterStatsd p c);
  constructed_handlers : handlers s = defaultHandlers p c;
  constructed_middleware :
    middleware s = Some (buildMiddleware (defaultHandlers p c));
  constructed_NotFound :
    NotFound (router s) = Some (fun _ rw _ => WriteHeader StatusNotFound rw);
  constructed_MethodNotAllowed :
    MethodNotAllowed (router s)
    = Some (fun _ rw _ => WriteHeader StatusMethodNotAllowed rw)
}.

End Service.

(** ** A concrete setting, to run the definitions *)

Module Example.

(** [path.Clean]: empty and "." segments go, ".." takes back the segment
    before it (at the root it just goes), and the empty result is ".". *)
Fixpoint clean_segments (rooted : bool) (segs : list string) (kept : list string)
  : list string :=
  match segs with
  | [] => rev kept
  | seg :: rest =>
      if String.eqb seg "" || String.eqb seg "." then clean_segments rooted rest kept
      else if String.eqb seg ".." then
        match kept with
        | top :: kept' =>
            if String.eqb top ".." then clean_segments rooted rest (seg :: kept)
            else clean_segments rooted rest kept'
        | [] =>
            if rooted then clean_segments rooted rest kept
            else clean_segments rooted rest (seg :: kept)
        end
      else clean_segments rooted rest (seg :: kept)
  end.

Definition path_Clean (p : string) : string :=
  let rooted := String.prefix "/" p in
  let body := String.concat "/" (clean_segments rooted (segments p) []) in
  if rooted then "/" +:+ body
  else if String.eqb body "" then "." else body.

(** [path.Join(a, b)]: the non-empty elements joined by a slash, cleaned;
    the empty string when both are empty. *)
Definition go_path_Join (a b : string) : string :=
  if String.eqb a "" && String.eqb b "" then ""
  else if String.eqb a "" then path_Clean b
  else if String.eqb b "" then path_Clean a
  else path_Clean (a +:+ "/" +:+ b).

Definition collaborators : Collaborators :=
  {| Ctx := unit;
     Resource := string;
     ContentTypeJson := "application/json";
     ContentTypeXml := "application/xml";
     ContentTypeHtml := "text/html";
     path_Join := go_path_Join;
     path_matches := String.eqb;
     Bottom_HandleHTTP := fun _ ctx rw r next => next ctx rw r;
     Negotiator_HandleHTTP := fun _ ctx rw r next => next ctx rw r;
     ContextHandler_HandleHTTP := fun _ ctx rw r next => next ctx rw r;
     Resource_serve := fun _ _ _ _ rw _ => WriteHeader 200 rw;
     SchemaHandler_ServeHTTP := fun _ _ rw _ => WriteHeader 200 rw;
     http_Redirect := fun rw _ _ code => WriteHeader code rw;
     http_ListenAndServe := fun _ _ => Some "listen tcp: address already in use";
     http_ListenAndServeTLS := fun _ _ _ _ => Some "open cert.pem: no such file" |}.

Definition cfg (metrics : MetricsConfig) (vmin vmax : Z) : ServiceConfig :=
  {| Addr := ":8000";
     Log := {| Log_Prefix := "[example] " |};
     Metrics := metrics;
     Schema := {| Schema_Enabled := false; Schema_UriPath := "/schema";
                  Schema_FilePath := "schema"; Schema_FilePattern := "v%d.json";
                  Schema_RootRedirect := false |};
     Transport := {| Transport_TLS := false; Transport_CertFilePath := "";
                     Transport_KeyFilePath := "" |};
     Version := {| Version_Min := vmin; Version_Max := vmax |} |}.

Definition metricsOff : MetricsConfig :=
  {| Metrics_Enabled := false; Metrics_Server := ""; Metrics_Prefix := "";
     Metrics_Interval := 0 |}.

Definition metricsBare : MetricsConfig :=
  {| Metrics_Enabled := true; Metrics_Server := ""; Metrics_Prefix := "";
     Metrics_Interval := 0 |}.

Definition metricsSet : MetricsConfig :=
  {| Metrics_Enabled := true; Metrics_Server := "statsd:9125";
     Metrics_Prefix := "svc."; Metrics_Interval := 5000000000 |}.

Definition store1 (c : ServiceConfig) : heap := {[ 1%positive := c ]}.

(** The service built from [c] at address 1, if construction succeeds. *)
Definition built (c : ServiceConfig) : option (@service collaborators) :=
  match @NewService collaborators 1%positive (store1 c) with
  | Some (Ok s, _) => Some s
  | _ => None
  end.

Definition userHandler : @Handler collaborators :=
  HandlerFunc (fun ctx rw r next => next ctx rw r).

Definition config0 : ServiceConfig := cfg metricsOff 1 2.
Definition config1 : ServiceConfig := cfg metricsBare 1 2.
Definition config2 : ServiceConfig := cfg metricsSet 1 2.
Definition configBad : ServiceConfig := cfg metricsBare 0 2.

(** The service built from [c] at address 1 (the bare service if
    construction fails). *)
Definition service_of (c : ServiceConfig) : @service collaborators :=
  match built c with
  | Some s => s
  | None => @baseService collaborators 1%positive c
  end.

Definition widgets : list (@SetupCall collaborators) :=
  [@CallAddCollectionResource collaborators "/widgets" "widgets"].

Definition patchWidgets : Request := {| Method := "PATCH"; URLPath := "/widgets" |}.
Definition getGadgets : Request := {| Method := "GET"; URLPath := "/gadgets" |}.

End Example.

(** ** The outcome of construction and set-up, written out *)

Section Outcome.

Context `{Collaborators}.

(** The routes that [addSchemaRoutes] installs for the configuration [c],
    in the order it installs them. *)
Definition schemaRoutes (c : ServiceConfig) : list Route :=
  [ {| method := "GET";
       pattern := path_Join (Schema_UriPath (Schema c)) "/v:version";
       handle := FuncHandle
                   (SchemaHandler_ServeHTTP
                      (NewSchemaHandler (Schema_FilePath (Schema c))
                                        (Schema_FilePattern (Schema c)))) |};
    {| method := "GET";
       pattern := Schema_UriPath (Schema c);
       handle := FuncHandle
                   (fun _ rw r =>
                      http_Redirect rw r
                        (path_Join (Schema_UriPath (Schema c))
                                   ("v" +:+ pretty (Version_Max (Version c))))
                        StatusTemporaryRedirect) |} ]
  ++ (if Schema_RootRedirect (Schema c)
      then [ {| method := "GET";
                pattern := "/";
                handle := FuncHandle
                            (fun _ rw r =>
                               http_Redirect rw r (Schema_UriPath (Schema c))
                                             StatusTemporaryRedirect) |} ]
      else []).

(** The service [NewService] returns for the configuration [c] at [p]. *)
Definition builtService (p : loc) (c : ServiceConfig) : service :=
  let s0 := afterStatsd p c in
  {| config := p;
     logger := log_New (Log_Prefix (Log c)) log_LstdFlags;
     router :=
       {| routes := if Schema_Enabled (Schema c) then schemaRoutes c else [];
          NotFound := Some (fun _ rw _ => WriteHeader StatusNotFound rw);
          MethodNotAllowed :=
            Some (fun _ rw _ => WriteHeader StatusMethodNotAllowed rw) |};
     statsdClient := statsdClient s0;
     stats := stats s0;
     handlers := defaultHandlers p c;
     middleware := Some (buildMiddleware (defaultHandlers p c));
     schema := if Schema_Enabled (Schema c)
               then Some (NewSchemaHandler (Schema_FilePath (Schema c))
                                           (Schema_FilePattern (Schema c)))
               else None |}.

(** The handlers that a sequence of set-up calls adds, in call order. *)
Fixpoint setup_handlers (calls : list SetupCall) : list Handler :=
  match calls with
  | [] => []
  | CallAddHandler h :: rest => h :: setup_handlers rest
  | _ :: rest => setup_handlers rest
  end.

(** The number of bindings that a sequence of set-up calls registers. *)
Fixpoint setup_route_count (calls : list SetupCall) : nat :=
  match calls with
  | [] => 0
  | CallAddHandler _ :: rest => setup_route_count rest
  | CallAddSingletonResource _ _ :: rest => 3 + setup_route_count rest
  | CallAddCollectionResource _ _ :: rest => 7 + setup_route_count rest
  end.

End Outcome.

Module ExampleSchema.

(** A configuration with the schema routes and the root redirect on. *)
Definition configSchema : ServiceConfig :=
  {| Addr := ":8000";
     Log := {| Log_Prefix := "[example] " |};
     Metrics := Example.metricsOff;
     Schema := {| Schema_Enabled := true; Schema_UriPath := "/schema";
                  Schema_FilePath := "schema"; Schema_FilePattern := "v%d.json";
                  Schema_RootRedirect := true |};
     Transport := {| Transport_TLS := true; Transport_CertFilePath := "cert.pem";
                     Transport_KeyFilePath := "key.pem" |};
     Version := {| Version_Min := 1; Version_Max := 3 |} |}.

End ExampleSchema.

(** * The DynamoDB datastore (package datastore)

    The table wrapper that counts, times, traces and logs each call to a
    DynamoDB table.  The table, the tracer and the clock are outside the
    package; their state is an opaque [Env] inside the [World] that the
    operations transform. *)

Module Datastore.

(** ** Provider parameters *)

Record DynamoParams := {
  Region : string;
  TableName : string;
  AccessKey : string;
  SecretKey : string
}.

(** [params[k]]: a missing key reads as the empty string. *)
Definition param (params : gmap string string) (k : string) : string :=
  default "" (params !! k).

Definition NewDynamoParams (params : gmap string string) : result DynamoParams :=
  let p := {| Region := param params "region";
              TableName := param params "table_name";
              AccessKey := param params "access_key";
              SecretKey := param params "secret_key" |} in
  if String.eqb (Region p) ""
  then Err "DynamoDB providers require a 'region' parameter"
  else if String.eqb (TableName p) ""
  then Err "DynamoDB providers require a 'table_name' parameter"
  else Ok p.

(** ** Data of the libraries, as far as the package reads it *)

(** The fields of [dynamodb.Error] that [handleError] logs. *)
Record DynamoError := {
  StatusCode : Z;
  Status : string;
  Code : string;
  Message : string
}.

(** [aws.Region]; only its name is read. *)
Record AwsRegion := { Region_Name : string }.

(** [dynamodb.Key]. *)
Record Key := { HashKey : string; RangeKey : string }.

(** A value of a [logrus.Fields] map. *)
Inductive FieldValue :=
| FString (v : string)
| FInt (v : Z).

(** The label values of one metric child: region, table, operation. *)
Abbreviation Labels := (string * string * string)%type.

(** The types that the libraries own. *)
Class Types := {
  GoError : Type;               (* a non-nil [error] *)
  GoError_eq_dec :: EqDecision GoError;
  Item : Type;                  (* map[string]*dynamodb.Attribute *)
  Attribute : Type;
  AttributeComparison : Type;
  Auth : Type;
  LogrusLogger : Type;
  Env : Type                    (* the table's contents, the tracer, the clock *)
}.

Section Model.

Context `{Types}.

(** A value put into a span's data. *)
Inductive SpanValue :=
| SVString (v : string)
| SVError (e : GoError)
| SVInt (n : Z).

(** A span, as its data map. *)
Abbreviation Span := (gmap string SpanValue).

Record Server := { Server_Auth : Auth; Server_Region : AwsRegion }.

(** [dynamodb.Table]: its server, its name and the name of its hash key. *)
Record Table := {
  Table_Server : Server;
  Table_Name : string;
  Table_KeyName : string
}.

Record DynamoTable := {
  dt_logger : LogrusLogger;
  dt_Table : Table
}.

(** An entry written at error level. *)
Record LogEntry := {
  entry_logger : LogrusLogger;
  entry_fields : gmap string FieldValue;
  entry_message : string
}.

(** What a call to the table gives: its value, its error (None for nil),
    the time that passed between [time.Now()] before the call and
    [time.Since] after it, in nanoseconds, and the world outside after it. *)
Record TableResult (A : Type) := {
  res_val : A;
  res_err : option GoError;
  res_elapsed : Z;
  res_env : Env
}.
Arguments res_val {A} _.
Arguments res_err {A} _.
Arguments res_elapsed {A} _.
Arguments res_env {A} _.

(** What the package uses and does not define. *)
Class Backend := {
  DYNAMODB_PROVIDER : string;
  ErrNotFound : GoError;                              (* dynamodb.ErrNotFound *)
  asDynamoError : GoError -> option DynamoError;      (* err.( *dynamodb.Error) *)
  Error_string : GoError -> string;                   (* err.Error() *)
  aws_GetAuth : string -> string -> Env -> Auth + GoError;
  aws_Regions : gmap string AwsRegion;
  trace_Continue : string -> string -> Env -> option Span * Env;
  Table_GetItem : Table -> Key -> Env -> TableResult (option Item);
  Table_PutItem : Table -> string -> string -> list Attribute -> Env -> TableResult bool;
  Table_ConditionalPutItem :
    Table -> string -> string -> list Attribute -> list Attribute -> Env ->
    TableResult bool;
  Table_UpdateAttributes : Table -> Key -> list Attribute -> Env -> TableResult bool;
  Table_ConditionalUpdateAttributes :
    Table -> Key -> list Attribute -> list Attribute -> Env -> TableResult bool;
  Table_DeleteItem : Table -> Key -> Env -> TableResult bool;
  Table_Scan :
    Table -> list AttributeComparison -> Env -> TableResult (option (list Item));
  Table_QueryOnIndex :
    Table -> list AttributeComparison -> string -> Env ->
    TableResult (option (list Item))
}.

Context `{Backend}.

(** ** The world the operations act on *)

(** The three package-level metrics, the error log, the spans that have
    run (with the data they ended with) and the world outside.  A counter
    child is the number of times it was incremented; the summary is the list
    of its observations, each the elapsed time it was computed from. *)
Record World := {
  env : Env;
  dynamoOps : gmap Labels nat;
  dynamoOpLatencies : list (Labels * Z);
  dynamoErrors : gmap Labels nat;
  logs : list LogEntry;
  spans : list Span
}.

Definition set_env (e : Env) (w : World) : World :=
  {| env := e; dynamoOps := dynamoOps w; dynamoOpLatencies := dynamoOpLatencies w;
     dynamoErrors := dynamoErrors w; logs := logs w; spans := spans w |}.

(** The value of a counter child; a child never incremented is at zero. *)
Definition counter (m : gmap Labels nat) (l : Labels) : nat := default 0%nat (m !! l).

(** [dynamoOps.WithLabelValues(region, table, operation).Inc()]. *)
Definition Inc_dynamoOps (l : Labels) (w : World) : World :=
  {| env := env w;
     dynamoOps := <[l := S (counter (dynamoOps w) l)]> (dynamoOps w);
     dynamoOpLatencies := dynamoOpLatencies w;
     dynamoErrors := dynamoErrors w; logs := logs w; spans := spans w |}.

(** [dynamoOpLatencies.WithLabelValues(...).Observe(latency.Seconds() * 1000)]. *)
Definition Observe_dynamoOpLatencies (l : Labels) (latency : Z) (w : World) : World :=
  {| env := env w; dynamoOps := dynamoOps w;
     dynamoOpLatencies := dynamoOpLatencies w ++ [(l, latency)];
     dynamoErrors := dynamoErrors w; logs := logs w; spans := spans w |}.

(** [logger.WithFields(fields).Error(message)]. *)
Definition log_Error (l : LogrusLogger) (fields : gmap string FieldValue)
           (message : string) (w : World) : World :=
  {| env := env w; dynamoOps := dynamoOps w;
     dynamoOpLatencies := dynamoOpLatencies w; dynamoErrors := dynamoErrors w;
     logs := logs w ++ [ {| entry_logger := l; entry_fields := fields;
                            entry_message := message |} ];
     spans := spans w |}.

(** The end of [trace.Run(s, f)]: a span that is not nil has run. *)
Definition span_done (s : option Span) (w : World) : World :=
  match s with
  | Some data =>
      {| env := env w; dynamoOps := dynamoOps w;
         dynamoOpLatencies := dynamoOpLatencies w; dynamoErrors := dynamoErrors w;
         logs := logs w; spans := spans w ++ [data] |}
  | None => w
  end.

(** ** The table *)

Definition region_name (t : DynamoTable) : string :=
  Region_Name (Server_Region (Table_Server (dt_Table t))).

Definition table_name (t : DynamoTable) : string := Table_Name (dt_Table t).

Definition labels (t : DynamoTable) (op : string) : Labels :=
  (region_name t, table_name t, op).

(** [aws.Regions[name]]: an unknown name gives the zero [Region]. *)
Definition lookup_region (name : string) : AwsRegion :=
  default {| Region_Name := "" |} (aws_Regions !! name).

Definition NewDynamoTable (params : DynamoParams) (logger : LogrusLogger) (e : Env)
  : DynamoTable + GoError :=
  match aws_GetAuth (AccessKey params) (SecretKey params) e with
  | inr err => inr err
  | inl auth =>
      let server := {| Server_Auth := auth;
                       Server_Region := lookup_region (Region params) |} in
      let table := {| Table_Server := server; Table_Name := TableName params;
                      Table_KeyName := "id" |} in
      inl {| dt_logger := logger; dt_Table := table |}
  end.

(** [t.String()]: provider{region:table}. *)
Definition DynamoTable_String (t : DynamoTable) : string :=
  DYNAMODB_PROVIDER +:+ "{" +:+ region_name t +:+ ":" +:+ table_name t +:+ "}".

Definition handleError (t : DynamoTable) (op : string) (err : GoError) (w : World)
  : World :=
  match asDynamoError err with
  | Some dynErr =>
      let w := log_Error (dt_logger t)
                 (<["provider" := FString DYNAMODB_PROVIDER]>
                  (<["region" := FString (region_name t)]>
                   (<["table_name" := FString (table_name t)]>
                    (<["op" := FString op]>
                     (<["status_code" := FInt (StatusCode dynErr)]>
                      (<["status" := FString (Status dynErr)]>
                       (<["code" := FString (Code dynErr)]> ∅)))))))
                 (Message dynErr) w in
      Inc_dynamoOps (labels t (Code dynErr)) w
  | None =>
      log_Error (dt_logger t)
        (<["provider" := FString DYNAMODB_PROVIDER]>
         (<["region" := FString (region_name t)]>
          (<["table_name" := FString (table_name t)]>
           (<["op" := FString op]> ∅))))
        (Error_string err) w
  end.

(** [data["op"] = op], and [data["error"] = err] when [record] holds of a
    non-nil [err]; nothing on a nil span. *)
Definition span_note (s : option Span) (op : string) (err : option GoError)
           (record : GoError -> bool) : option Span :=
  match s with
  | Some data =>
      let data := <["op" := SVString op]> data in
      Some match err with
           | Some e => if record e then <["error" := SVError e]> data else data
           | None => data
           end
  | None => None
  end.

(** [data["items"] = len(attrs)] when there is no error. *)
Definition span_items (s : option Span) (err : option GoError)
           (attrs : option (list Item)) : option Span :=
  match s, err with
  | Some data, None =>
      Some (<["items" := SVInt (Z.of_nat (length (default [] attrs)))]> data)
  | _, _ => s
  end.

(** The two metric updates every operation makes after its call. *)
Definition count_and_time (t : DynamoTable) (op : string) (latency : Z) (w : World)
  : World :=
  let w := Inc_dynamoOps (labels t op) w in
  Observe_dynamoOpLatencies (labels t op) latency w.

Definition not_ErrNotFound (e : GoError) : bool := bool_decide (e <> ErrNotFound).

Definition GetItem (t : DynamoTable) (id : string) (w : World)
  : option Item * bool * option GoError * World :=
  let op := "GetItem" in
  let '(s, e) := trace_Continue DYNAMODB_PROVIDER (DynamoTable_String t) (env w) in
  let w := set_env e w in
  let key := {| HashKey := id; RangeKey := "" |} in
  let out := Table_GetItem (dt_Table t) key (env w) in
  let attrs := res_val out in
  let err := res_err out in
  let latency := res_elapsed out in
  let w := set_env (res_env out) w in
  let s := span_note s op err not_ErrNotFound in
  let w := span_done s w in
  let w := count_and_time t op latency w in
  match err with
  | Some e =>
      if bool_decide (e = ErrNotFound)
      then (attrs, false, None, w)
      else (attrs, false, Some e, handleError t op e w)
  | None => (attrs, true, None, w)
  end.

Definition PutItem (t : DynamoTable) (id : string) (attrs condAttrs : list Attribute)
           (w : World) : option GoError * World :=
  let '(s, e) := trace_Continue DYNAMODB_PROVIDER (DynamoTable_String t) (env w) in
  let w := set_env e w in
  let op := if bool_decide (length condAttrs <> 0%nat)
            then "ConditionalPutItem" else "PutItem" in
  let out := if bool_decide (length condAttrs <> 0%nat)
             then Table_ConditionalPutItem (dt_Table t) id "" attrs condAttrs (env w)
             else Table_PutItem (dt_Table t) id "" attrs (env w) in
  let err := res_err out in
  let latency := res_elapsed out in
  let w := set_env (res_env out) w in
  let s := span_note s op err (fun _ => true) in
  let w := span_done s w in
  let w := count_and_time t op latency w in
  match err with
  | Some e => (Some e, handleError t op e w)
  | None => (None, w)
  end.

Definition UpdateItem (t : DynamoTable) (id : string) (attrs condAttrs : list Attribute)
           (w : World) : option GoError * World :=
  let '(s, e) := trace_Continue DYNAMODB_PROVIDER (DynamoTable_String t) (env w) in
  let w := set_env e w in
  let key := {| HashKey := id; RangeKey := "" |} in
  let op := if bool_decide (length condAttrs <> 0%nat)
            then "ConditionalUpdateAttributes" else "UpdateAttributes" in
  let out := if bool_decide (length condAttrs <> 0%nat)
             then Table_ConditionalUpdateAttributes (dt_Table t) key attrs condAttrs
                    (env w)
             else Table_UpdateAttributes (dt_Table t) key attrs (env w) in
  let err := res_err out in
  let latency := res_elapsed out in
  let w := set_env (res_env out) w in
  let s := span_note s op err (fun _ => true) in
  let w := span_done s w in
  let w := count_and_time t op latency w in
  match err with
  | Some e => (Some e, handleError t op e w)
  | None => (None, w)
  end.

Definition DeleteItem (t : DynamoTable) (id : string) (w : World)
  : bool * option GoError * World :=
  let op := "DeleteItem" in
  let '(s, e) := trace_Continue DYNAMODB_PROVIDER (DynamoTable_String t) (env w) in
  let w := set_env e w in
  let key := {| HashKey := id; RangeKey := "" |} in
  let out := Table_DeleteItem (dt_Table t) key (env w) in
  let err := res_err out in
  let latency := res_elapsed out in
  let w := set_env (res_env out) w in
  let s := span_note s op err not_ErrNotFound in
  let w := span_done s w in
  let w := count_and_time t op latency w in
  match err with
  | Some e =>
      if bool_decide (e = ErrNotFound)
      then (false, None, w)
      else (false, Some e, handleError t op e w)
  | None => (true, None, w)
  end.

Definition Scan (t : DynamoTable) (comps : list AttributeComparison) (w : World)
  : option (list Item) * option GoError * World :=
  let op := "Scan" in
  let '(s, e) := trace_Continue DYNAMODB_PROVIDER (DynamoTable_String t) (env w) in
  let w := set_env e w in
  let out := Table_Scan (dt_Table t) comps (env w) in
  let attrs := res_val out in
  let err := res_err out in
  let latency := res_elapsed out in
  let w := set_env (res_env out) w in
  let s := span_items (span_note s op err (fun _ => true)) err attrs in
  let w := span_done s w in
  let w := count_and_time t op latency w in
  match err with
  | Some e => (None, Some e, handleError t op e w)
  | None => (attrs, None, w)
  end.

Definition QueryOnIndex (t : DynamoTable) (comps : list AttributeComparison)
           (indexName : string) (w : World)
  : option (list Item) * option GoError * World :=
  let op := "QueryOnIndex" in
  let '(s, e) := trace_Continue DYNAMODB_PROVIDER (DynamoTable_String t) (env w) in
  let w := set_env e w in
  let out := Table_QueryOnIndex (dt_Table t) comps indexName (env w) in
  let attrs := res_val out in
  let err := res_err out in
  let latency := res_elapsed out in
  let w := set_env (res_env out) w in
  let s := match span_note s op None (fun _ => true) with
           | Some data => Some (<["index" := SVString indexName]> data)
           | None => None
           end in
  let s := match s, err with
           | Some data, Some e => Some (<["error" := SVError e]> data)
           | _, _ => span_items s err attrs
           end in
  let w := span_done s w in
  let w := count_and_time t op latency w in
  match err with
  | Some e => (attrs, Some e, handleError t op e w)
  | None => (attrs, None, w)
  end.

(** The world an operation leaves behind, from the world [w] it started
    in: the span [s] it ended, the time [latency] it measured, the world
    outside [e] after the table call and the error [ret] it returns. *)
Definition op_world (t : DynamoTable) (op : string) (s : option Span) (latency : Z)
           (e : Env) (ret : option GoError) (w : World) : World :=
  let w := span_done s (set_env e w) in
  let w := count_and_time t op latency w in
  match ret with
  | Some err => handleError t op err w
  | None => w
  end.

(** ** Sequences of operations *)

Inductive Call :=
| CallGetItem (id : string)
| CallPutItem (id : string) (attrs condAttrs : list Attribute)
| CallUpdateItem (id : string) (attrs condAttrs : list Attribute)
| CallDeleteItem (id : string)
| CallScan (comps : list AttributeComparison)
| CallQueryOnIndex (comps : list AttributeComparison) (indexName : string).

(** The error an operation returns, and the world it leaves. *)
Definition call_run (t : DynamoTable) (c : Call) (w : World)
  : option GoError * World :=
  match c with
  | CallGetItem id => let '(_, _, err, w') := GetItem t id w in (err, w')
  | CallPutItem id attrs condAttrs => PutItem t id attrs condAttrs w
  | CallUpdateItem id attrs condAttrs => UpdateItem t id attrs condAttrs w
  | CallDeleteItem id => let '(_, err, w') := DeleteItem t id w in (err, w')
  | CallScan comps => let '(_, err, w') := Scan t comps w in (err, w')
  | CallQueryOnIndex comps indexName =>
      let '(_, err, w') := QueryOnIndex t comps indexName w in (err, w')
  end.

(** The operation label an operation counts itself under. *)
Definition call_op (c : Call) : string :=
  match c with
  | CallGetItem _ => "GetItem"
  | CallPutItem _ _ condAttrs =>
      if bool_decide (length condAttrs <> 0%nat) then "ConditionalPutItem" else "PutItem"
  | CallUpdateItem _ _ condAttrs =>
      if bool_decide (length condAttrs <> 0%nat)
      then "ConditionalUpdateAttributes" else "UpdateAttributes"
  | CallDeleteItem _ => "DeleteItem"
  | CallScan _ => "Scan"
  | CallQueryOnIndex _ _ => "QueryOnIndex"
  end.

Definition run_calls (t : DynamoTable) (calls : list Call) (w : World) : World :=
  fold_left (fun w c => snd (call_run t c w)) calls w.

(** How many of the calls return an error, when run in order from [w]. *)
Fixpoint errors_returned (t : DynamoTable) (calls : list Call) (w : World) : nat :=
  match calls with
  | [] => 0
  | c :: rest =>
      (match fst (call_run t c w) with Some _ => 1 | None => 0 end
       + errors_returned t rest (snd (call_run t c w)))%nat
  end.

(** What [handleError] adds to the child [l] of [dynamoOps] for the
    returned error [err]: one, when [err] is a [dynamodb.Error] whose code is
    the operation label of [l]. *)
Definition error_count (t : DynamoTable) (err : option GoError) (l : Labels) : nat :=
  match err with
  | Some e =>
      match asDynamoError e with
      | Some dynErr => if bool_decide (l = labels t (Code dynErr)) then 1 else 0
      | None => 0
      end
  | None => 0
  end.

End Model.

Arguments res_val {_ A} _.
Arguments res_err {_ A} _.
Arguments res_elapsed {_ A} _.
Arguments res_env {_ A} _.

End Datastore.

(** ** A concrete datastore setting, to run the definitions *)

Module DatastoreExample.

Import Datastore.

#[export] Instance types : Types :=
  {| GoError := string; Item := string; Attribute := string;
     AttributeComparison := string; Auth := string; LogrusLogger := unit;
     Env := nat |}.

Definition throttled : DynamoError :=
  {| StatusCode := 400; Status := "400 Bad Request";
     Code := "ProvisionedThroughputExceededException";
     Message := "rate exceeded" |}.

(** A table that holds the item "a" only, refuses the key "hot" and lets
    every call take a millisecond; each call moves the clock by one. *)
Definition answer {A : Type} (v : A) (err : option string) (e : nat) : TableResult A :=
  {| res_val := v; res_err := err; res_elapsed := 1000000; res_env := S e |}.

#[export] Instance backend : Backend :=
  {| DYNAMODB_PROVIDER := "dynamodb";
     ErrNotFound := "Item not found";
     asDynamoError := fun e => if String.eqb e "throttled" then Some throttled else None;
     Error_string := fun e => e;
     aws_GetAuth := fun a s _ => if String.eqb a "" then inr "no credentials"
                                else inl (a +:+ ":" +:+ s);
     aws_Regions := {[ "us-east-1" := {| Region_Name := "us-east-1" |} ]};
     trace_Continue := fun _ _ e => (Some ∅, e);
     Table_GetItem := fun _ k e =>
       if String.eqb (HashKey k) "a" then answer (Some "item a") None e
       else if String.eqb (HashKey k) "hot" then answer None (Some "throttled") e
       else answer None (Some "Item not found") e;
     Table_PutItem := fun _ _ _ _ e => answer true None e;
     Table_ConditionalPutItem := fun _ _ _ _ _ e => answer false (Some "condition failed") e;
     Table_UpdateAttributes := fun _ _ _ e => answer true None e;
     Table_ConditionalUpdateAttributes := fun _ _ _ _ e =>
       answer false (Some "condition failed") e;
     Table_DeleteItem := fun _ k e =>
       if String.eqb (HashKey k) "a" then answer true None e
       else answer false (Some "Item not found") e;
     Table_Scan := fun _ _ e => answer (Some ["item a"]) None e;
     Table_QueryOnIndex := fun _ _ _ e => answer (Some ["partial"]) (Some "throttled") e |}.

Definition goodParams : gmap string string :=
  {[ "region" := "us-east-1"; "table_name" := "widgets"; "access_key" := "AK";
     "secret_key" := "SK" ]}.

Definition table : DynamoTable :=
  {| dt_logger := tt;
     dt_Table := {| Table_Server := {| Server_Auth := "AK:SK";
                                       Server_Region := {| Region_Name := "us-east-1" |} |};
                    Table_Name := "widgets"; Table_KeyName := "id" |} |}.

Definition world0 : World :=
  {| env := 0%nat; dynamoOps := ∅; dynamoOpLatencies := []; dynamoErrors := ∅;
     logs := []; spans := [] |}.

End DatastoreExample.

(** ** Properties *)

Section Properties.

Context `{Collaborators}.

(** *** Stepping a computation *)

Lemma bind_deref {B : Type} (p : loc) (k : ServiceConfig -> St B) (h : heap)
      (c : ServiceConfig) :
  h !! p = Some c -> bind (deref p) k h = k c h.
Proof. intros Hp. unfold bind, deref. by rewrite Hp. Qed.

Lemma bind_modify {B : Type} (p : loc) (f : ServiceConfig -> ServiceConfig)
      (k : unit -> St B) (h : heap) (c : ServiceConfig) :
  h !! p = Some c -> bind (modify p f) k h = k tt (<[p := f c]> h).
Proof. intros Hp. unfold bind, modify. by rewrite Hp. Qed.

Lemma bind_when_modify {B : Type} (b : bool) (p : loc)
      (f : ServiceConfig -> ServiceConfig) (k : unit -> St B) (h : heap)
      (c : ServiceConfig) :
  h !! p = Some c ->
  bind (when b (modify p f)) k h = k tt (<[p := if b then f c else c]> h).
Proof.
  intros Hp. destruct b; simpl.
  - by apply bind_modify.
  - unfold bind, ret. by rewrite insert_id.
Qed.

Lemma bind_bind {A B C : Type} (m : St A) (k : A -> St B) (k' : B -> St C) (h : heap) :
  bind (bind m k) k' h = bind m (fun a => bind (k a) k') h.
Proof. unfold bind. destruct (m h) as [[a h']|]; reflexivity. Qed.

(** *** The metrics defaults *)

Lemma fill_withMetricsDefaults (c : ServiceConfig) :
  fillInterval (fillPrefix (fillServer c)) = withMetricsDefaults c.
Proof.
  destruct c as [a l [en sv pf iv] sc tr ve].
  unfold fillInterval, fillPrefix, fillServer, withMetricsDefaults; simpl.
  destruct (String.eqb sv ""); simpl;
    destruct (String.eqb pf ""); simpl;
    destruct (iv =? 0); reflexivity.
Qed.

Lemma createStatsd_enabled (s : service) (h : heap) (c : ServiceConfig) :
  h !! config s = Some c ->
  Metrics_Enabled (Metrics c) = true ->
  createStatsd s h = Some (withStatsd c s, <[config s := withMetricsDefaults c]> h).
Proof.
  intros Hp Hen. unfold createStatsd.
  rewrite (bind_deref _ _ _ _ Hp), Hen.
  rewrite bind_bind, (bind_deref _ _ _ _ Hp).
  rewrite (bind_when_modify _ _ _ _ _ _ Hp).
  fold (fillServer c).
  set (h1 := <[config s := fillServer c]> h).
  assert (H1 : h1 !! config s = Some (fillServer c)) by apply lookup_insert_eq.
  rewrite bind_bind, (bind_deref _ _ _ _ H1).
  rewrite (bind_when_modify _ _ _ _ _ _ H1).
  fold (fillPrefix (fillServer c)).
  set (h2 := <[config s := fillPrefix (fillServer c)]> h1).
  assert (H2 : h2 !! config s = Some (fillPrefix (fillServer c)))
    by apply lookup_insert_eq.
  rewrite bind_bind, (bind_deref _ _ _ _ H2).
  rewrite (bind_when_modify _ _ _ _ _ _ H2).
  fold (fillInterval (fillPrefix (fillServer c))).
  rewrite fill_withMetricsDefaults.
  set (h3 := <[config s := withMetricsDefaults c]> h2).
  assert (H3 : h3 !! config s = Some (withMetricsDefaults c))
    by apply lookup_insert_eq.
  rewrite (bind_deref _ _ _ _ H3). simpl.
  rewrite (bind_deref _ _ _ _ H3). simpl.
  unfold modify_stats, withStatsd; simpl.
  do 2 f_equal.
  unfold h3, h2, h1. by rewrite !insert_insert_eq.
Qed.

Lemma createStatsd_disabled (s : service) (h : heap) (c : ServiceConfig) :
  h !! config s = Some c ->
  Metrics_Enabled (Metrics c) = false ->
  createStatsd s h = Some (s, h).
Proof.
  intros Hp Hen. unfold createStatsd.
  by rewrite (bind_deref _ _ _ _ Hp), Hen.
Qed.

Lemma bind_ret {A B : Type} (a : A) (k : A -> St B) (h : heap) :
  bind (ret a) k h = k a h.
Proof. reflexivity. Qed.

Lemma bind_eq {A B : Type} (m : St A) (k : A -> St B) (h h' : heap) (a : A) :
  m h = Some (a, h') -> bind m k h = k a h'.
Proof. intros Hm. unfold bind. by rewrite Hm. Qed.

Lemma createStatsd_run (p : loc) (c : ServiceConfig) (h : heap) :
  h !! p = Some c ->
  createStatsd (baseService p c) h = Some (afterStatsd p c, storeAfter p c h).
Proof.
  intros Hp. unfold afterStatsd, storeAfter.
  destruct (Metrics_Enabled (Metrics c)) eqn:Hen.
  - by apply (createStatsd_enabled (baseService p c)).
  - by apply (createStatsd_disabled (baseService p c) h c).
Qed.

Lemma storeAfter_lookup (p : loc) (c : ServiceConfig) (h : heap) :
  h !! p = Some c -> storeAfter p c h !! p = Some (configAfter c).
Proof.
  intros Hp. unfold storeAfter, configAfter.
  destruct (Metrics_Enabled (Metrics c)); [apply lookup_insert_eq | done].
Qed.

Lemma storeAfter_other (p q : loc) (c : ServiceConfig) (h : heap) :
  p <> q -> storeAfter p c h !! q = h !! q.
Proof.
  intros Hne. unfold storeAfter.
  destruct (Metrics_Enabled (Metrics c)); [by apply lookup_insert_ne | done].
Qed.

Lemma configAfter_Version (c : ServiceConfig) : Version (configAfter c) = Version c.
Proof. unfold configAfter. by destruct (Metrics_Enabled (Metrics c)). Qed.

Lemma configAfter_Schema (c : ServiceConfig) : Schema (configAfter c) = Schema c.
Proof. unfold configAfter. by destruct (Metrics_Enabled (Metrics c)). Qed.

Lemma afterStatsd_config (p : loc) (c : ServiceConfig) : config (afterStatsd p c) = p.
Proof. unfold afterStatsd. by destruct (Metrics_Enabled (Metrics c)). Qed.

Lemma afterStatsd_logger (p : loc) (c : ServiceConfig) :
  logger (afterStatsd p c) = log_New (Log_Prefix (Log c)) log_LstdFlags.
Proof. unfold afterStatsd. by destruct (Metrics_Enabled (Metrics c)). Qed.

Lemma afterStatsd_router (p : loc) (c : ServiceConfig) :
  router (afterStatsd p c) = router (baseService p c).
Proof. unfold afterStatsd. by destruct (Metrics_Enabled (Metrics c)). Qed.

(** [addSchemaRoutes] touches the schema handler and the routes only. *)
Lemma addSchemaRoutes_run (s : service) (h : heap) (c : ServiceConfig) :
  h !! config s = Some c ->
  exists s', addSchemaRoutes s h = Some (s', h)
    /\ config s' = config s /\ logger s' = logger s /\ stats s' = stats s
    /\ handlers s' = handlers s /\ middleware s' = middleware s
    /\ NotFound (router s') = NotFound (router s)
    /\ MethodNotAllowed (router s') = MethodNotAllowed (router s).
Proof.
  intros Hp. unfold addSchemaRoutes.
  rewrite (bind_deref _ _ _ _ Hp).
  destruct (Schema_RootRedirect (Schema c)); eexists; (split; [reflexivity|]);
    repeat split; reflexivity.
Qed.

(** What [NewService] returns, and the store it leaves. *)
Lemma NewService_run (p : loc) (h : heap) (c : ServiceConfig) :
  h !! p = Some c ->
  exists res, NewService p h = Some (res, storeAfter p c h)
    /\ match res with
       | Err _ => Version_Min (Version c) < 1 \/ Version_Max (Version c) < 1
       | Ok s => 1 <= Version_Min (Version c) /\ 1 <= Version_Max (Version c)
                 /\ constructed p c s
       end.
Proof.
  intros Hp. unfold NewService.
  rewrite (bind_deref _ _ _ _ Hp).
  change (set_router _ (set_router _ _)) with (baseService p c).
  rewrite (bind_eq _ _ _ _ _ (createStatsd_run p c h Hp)).
  pose proof (storeAfter_lookup p c h Hp) as Hp'.
  unfold newBottomHandler, newNegotiatorHandler.
  rewrite bind_ret. cbv beta iota.
  rewrite bind_ret. cbv beta iota.
  unfold newContextHandler.
  rewrite afterStatsd_config, afterStatsd_logger.
  rewrite bind_bind, (bind_deref _ _ _ _ Hp'), configAfter_Version.
  destruct (Z.ltb_spec (Version_Min (Version c)) 1) as [Hmin|Hmin].
  { eexists. split; [reflexivity|]. by left. }
  rewrite bind_bind, (bind_deref _ _ _ _ Hp'), configAfter_Version.
  destruct (Z.ltb_spec (Version_Max (Version c)) 1) as [Hmax|Hmax].
  { eexists. split; [reflexivity|]. by right. }
  rewrite bind_bind, (bind_deref _ _ _ _ Hp').
  rewrite bind_ret. cbv beta iota.
  rewrite (bind_deref _ _ _ _ Hp'), !configAfter_Version, configAfter_Schema.
  fold (defaultHandlers p c).
  destruct (Schema_Enabled (Schema c)).
  - match goal with
    | |- context [bind (addSchemaRoutes ?s0) _ _] =>
        destruct (addSchemaRoutes_run s0 (storeAfter p c h) (configAfter c))
          as (s' & Hrun & Hc & Hl & Hs & Hh & Hm & Hnf & Hmna)
    end.
    { simpl. by rewrite afterStatsd_config. }
    rewrite (bind_eq _ _ _ _ _ Hrun).
    eexists. split; [reflexivity|].
    split; [lia|]. split; [lia|].
    split; [ rewrite Hc | rewrite Hl | rewrite Hs | rewrite Hh | rewrite Hm
           | rewrite Hnf | rewrite Hmna ]; simpl;
      rewrite ?afterStatsd_config, ?afterStatsd_logger, ?afterStatsd_router;
      reflexivity.
  - eexists. split; [reflexivity|].
    split; [lia|]. split; [lia|].
    split; simpl;
      rewrite ?afterStatsd_config, ?afterStatsd_logger, ?afterStatsd_router;
      reflexivity.
Qed.

(** *** Registration keeps everything but the routes *)

Lemma Router_Handle_routes (m pth : string) (hd : Handle) (rt : Router) :
  routes (Router_Handle m pth hd rt)
  = routes rt ++ [ {| method := m; pattern := pth; handle := hd |} ].
Proof. reflexivity. Qed.

Lemma buildMiddleware_chain (hs : list Handler) :
  buildMiddleware hs = chain hs (buildMiddleware []).
Proof.
  induction hs as [|a hs IH]; [reflexivity|].
  simpl. by rewrite IH.
Qed.

Lemma chain_app (hs hs' : list Handler) (k : ContextHandlerFunc) :
  chain (hs ++ hs') k = chain hs (chain hs' k).
Proof.
  induction hs as [|a hs IH]; [reflexivity|].
  simpl. by rewrite IH.
Qed.

Lemma buildMiddleware_app (hs hs' : list Handler) :
  buildMiddleware (hs ++ hs') = chain hs (buildMiddleware hs').
Proof.
  rewrite (buildMiddleware_chain (hs ++ hs')), chain_app.
  by rewrite <- buildMiddleware_chain.
Qed.

(** C1: for every base path and resource, AddCollectionResource adds exactly
    seven bindings to the router, in this order: GET p (List), GET p/{id}
    (Get, with id), POST p (Create), PUT p/{id} (Update, with id), DELETE p
    (Delete, without id), DELETE p/{id} (Delete, with id) and
    POST p/{id}/{action} (Action, with id); the bindings already there and
    every other field of the service stay as they were. *)
Theorem AddCollectionResource_registers_seven
        (basePath : string) (r : Resource) (s : service) :
  let s' := AddCollectionResource basePath r s in
  routes (router s')
  = routes (router s)
    ++ [ {| method := "GET"; pattern := basePath;
            handle := ResourceHandle r OpList false |};
         {| method := "GET"; pattern := basePath +:+ "/{id}";
            handle := ResourceHandle r OpGet true |};
         {| method := "POST"; pattern := basePath;
            handle := ResourceHandle r OpCreate false |};
         {| method := "PUT"; pattern := basePath +:+ "/{id}";
            handle := ResourceHandle r OpUpdate true |};
         {| method := "DELETE"; pattern := basePath;
            handle := ResourceHandle r OpDelete false |};
         {| method := "DELETE"; pattern := basePath +:+ "/{id}";
            handle := ResourceHandle r OpDelete true |};
         {| method := "POST"; pattern := (basePath +:+ "/{id}") +:+ "/{action}";
            handle := ResourceHandle r OpAction true |} ]
  /\ length (routes (router s')) = (length (routes (router s)) + 7)%nat
  /\ NotFound (router s') = NotFound (router s)
  /\ MethodNotAllowed (router s') = MethodNotAllowed (router s)
  /\ handlers s' = handlers s /\ middleware s' = middleware s
  /\ config s' = config s /\ stats s' = stats s.
Proof.
  cbv zeta.
  assert (Hr : routes (router (AddCollectionResource basePath r s))
               = routes (router s)
                 ++ [ {| method := "GET"; pattern := basePath;
                         handle := ResourceHandle r OpList false |};
                      {| method := "GET"; pattern := basePath +:+ "/{id}";
                         handle := ResourceHandle r OpGet true |};
                      {| method := "POST"; pattern := basePath;
                         handle := ResourceHandle r OpCreate false |};
                      {| method := "PUT"; pattern := basePath +:+ "/{id}";
                         handle := ResourceHandle r OpUpdate true |};
                      {| method := "DELETE"; pattern := basePath;
                         handle := ResourceHandle r OpDelete false |};
                      {| method := "DELETE"; pattern := basePath +:+ "/{id}";
                         handle := ResourceHandle r OpDelete true |};
                      {| method := "POST";
                         pattern := (basePath +:+ "/{id}") +:+ "/{action}";
                         handle := ResourceHandle r OpAction true |} ]).
  { unfold AddCollectionResource, addListRoute, addGetRoute, addCreateRoute,
      addUpdateRoute, addDeleteRoute, addActionRoute, withParam,
      Router_GET, Router_POST, Router_PUT, Router_DELETE.
    cbn [router set_router].
    rewrite !Router_Handle_routes, <- !app_assoc. reflexivity. }
  split; [exact Hr|].
  split; [rewrite Hr, length_app; reflexivity|].
  repeat split; reflexivity.
Qed.

(** C2: for every base path and resource, AddSingletonResource adds exactly
    three bindings: GET p (Get, without id), PUT p (Update, without id) and
    POST p/{action} (Action, without id).  None of the three is a DELETE,
    none is bound to Create, and none carries an id. *)
Theorem AddSingletonResource_registers_three
        (basePath : string) (r : Resource) (s : service) :
  let s' := AddSingletonResource basePath r s in
  let added :=
    [ {| method := "GET"; pattern := basePath;
         handle := ResourceHandle r OpGet false |};
      {| method := "PUT"; pattern := basePath;
         handle := ResourceHandle r OpUpdate false |};
      {| method := "POST"; pattern := basePath +:+ "/{action}";
         handle := ResourceHandle r OpAction false |} ] in
  routes (router s') = routes (router s) ++ added
  /\ length (routes (router s')) = (length (routes (router s)) + 3)%nat
  /\ Forall (fun b => method b <> "DELETE"
                      /\ route_operation b <> Some OpCreate
                      /\ route_operation b <> Some OpDelete
                      /\ route_operation b <> Some OpList
                      /\ route_idPresent b = false) added
  /\ NotFound (router s') = NotFound (router s)
  /\ MethodNotAllowed (router s') = MethodNotAllowed (router s)
  /\ handlers s' = handlers s /\ middleware s' = middleware s
  /\ config s' = config s /\ stats s' = stats s.
Proof.
  cbv zeta.
  assert (Hr : routes (router (AddSingletonResource basePath r s))
               = routes (router s)
                 ++ [ {| method := "GET"; pattern := basePath;
                         handle := ResourceHandle r OpGet false |};
                      {| method := "PUT"; pattern := basePath;
                         handle := ResourceHandle r OpUpdate false |};
                      {| method := "POST"; pattern := basePath +:+ "/{action}";
                         handle := ResourceHandle r OpAction false |} ]).
  { unfold AddSingletonResource, addGetRoute, addUpdateRoute, addActionRoute,
      withParam, Router_GET, Router_POST, Router_PUT.
    cbn [router set_router].
    rewrite !Router_Handle_routes, <- !app_assoc. reflexivity. }
  split; [exact Hr|].
  split; [rewrite Hr, length_app; reflexivity|].
  split.
  { repeat constructor; cbn; congruence. }
  repeat split; reflexivity.
Qed.

(** C3: AddHandler leaves the handler list equal to the previous list with
    the new handler appended last, so the handlers added before keep their
    positions, and the middleware chain is rebuilt from exactly the updated
    list: it runs the earlier handlers in their order around the new one. *)
Theorem AddHandler_appends_and_rebuilds (h : Handler) (s : service) :
  let s' := AddHandler h s in
  handlers s' = handlers s ++ [h]
  /\ last (handlers s') = Some h
  /\ take (length (handlers s)) (handlers s') = handlers s
  /\ middleware s' = Some (buildMiddleware (handlers s'))
  /\ middleware s' = Some (buildMiddleware (handlers s ++ [h]))
  /\ buildMiddleware (handlers s')
     = chain (handlers s) (fun ctx rw r => HandleHTTP h ctx rw r (fun _ rw' _ => rw'))
  /\ router s' = router s /\ config s' = config s /\ stats s' = stats s.
Proof.
  cbv zeta. unfold AddHandler. cbn [handlers middleware set_handlers set_middleware
                                    router config stats].
  split; [reflexivity|].
  split; [apply last_snoc|].
  split; [by rewrite take_app_length|].
  split; [reflexivity|].
  split; [reflexivity|].
  split; [by rewrite buildMiddleware_app|].
  repeat split; reflexivity.
Qed.

(** *** Running *)

Lemma Run_run (s : service) (h : heap) (c : ServiceConfig) :
  h !! config s = Some c ->
  let s' := AddHandler (routerHandler s) s in
  Run s h = Some (s', serveEvents c s' ++ deferred_Close s, serveError c s', h).
Proof.
  intros Hp. cbv zeta. unfold Run, newRouterHandler.
  rewrite bind_ret. cbv beta iota. fold (routerHandler s).
  assert (Hp' : h !! config (AddHandler (routerHandler s) s) = Some c) by exact Hp.
  rewrite (bind_deref _ _ _ _ Hp').
  unfold serveEvents, serveError.
  destruct (Transport_TLS (Transport c)); by rewrite (bind_deref _ _ _ _ Hp').
Qed.

Lemma setup_step_preserves (s : service) (call : SetupCall) :
  config (setup_step s call) = config s
  /\ logger (setup_step s call) = logger s
  /\ stats (setup_step s call) = stats s
  /\ NotFound (router (setup_step s call)) = NotFound (router s)
  /\ MethodNotAllowed (router (setup_step s call)) = MethodNotAllowed (router s).
Proof. destruct call; repeat split; reflexivity. Qed.

Lemma setup_preserves (calls : list SetupCall) (s : service) :
  config (setup calls s) = config s
  /\ logger (setup calls s) = logger s
  /\ stats (setup calls s) = stats s
  /\ NotFound (router (setup calls s)) = NotFound (router s)
  /\ MethodNotAllowed (router (setup calls s)) = MethodNotAllowed (router s).
Proof.
  revert s. induction calls as [|call calls IH]; intros s; [done|].
  unfold setup in *. simpl.
  destruct (IH (setup_step s call)) as (-> & -> & -> & -> & ->).
  apply setup_step_preserves.
Qed.

(** C4: Run appends the router handler as the last element of the handler
    list before it serves: the handler it passes to the server is the chain
    built from the list with the router handler at its end.  The router
    handler hands every request to the router and gives the same response
    whatever continuation it is passed, so it never invokes it. *)
Theorem Run_appends_terminal_router_handler
        (s : service) (h : heap) (c : ServiceConfig) :
  h !! config s = Some c ->
  exists (rh : Handler) (s' : service) (evs : list Event) (err : option error),
    Run s h = Some (s', evs, err, h)
    /\ handlers s' = handlers s ++ [rh]
    /\ last (handlers s') = Some rh
    /\ middleware s' = Some (buildMiddleware (handlers s ++ [rh]))
    /\ (if Transport_TLS (Transport c)
        then evs !! 1%nat
             = Some (EvListenAndServeTLS (Addr c)
                       (Transport_CertFilePath (Transport c))
                       (Transport_KeyFilePath (Transport c))
                       (Some (buildMiddleware (handlers s ++ [rh]))))
        else evs !! 1%nat
             = Some (EvListenAndServe (Addr c)
                       (Some (buildMiddleware (handlers s ++ [rh])))))
    /\ (forall ctx rw r next,
          HandleHTTP rh ctx rw r next = Router_HandleHTTP (router s) ctx rw r)
    /\ (forall ctx rw r next1 next2,
          HandleHTTP rh ctx rw r next1 = HandleHTTP rh ctx rw r next2).
Proof.
  intros Hp.
  exists (routerHandler s), (AddHandler (routerHandler s) s).
  eexists. eexists.
  split; [exact (Run_run s h c Hp)|].
  split; [reflexivity|].
  split; [apply last_snoc|].
  split; [reflexivity|].
  split.
  { unfold serveEvents. by destruct (Transport_TLS (Transport c)). }
  split; intros; reflexivity.
Qed.

(** C8: when the service was constructed with metrics enabled, Run ends by
    closing the buffered statsd client made at construction: the close is
    the last thing Run does, after the serve call, whatever error the serve
    call returned (Run returns that error). *)
Theorem Run_closes_stats_buffer
        (p : loc) (h h' h2 : heap) (c c2 : ServiceConfig) (s : service)
        (calls : list SetupCall) :
  h !! p = Some c ->
  Metrics_Enabled (Metrics c) = true ->
  NewService p h = Some (Ok s, h') ->
  h2 !! p = Some c2 ->
  exists (b : StatsdBuffer) (s' : service) (serving : list Event),
    stats s = Some b
    /\ Run (setup calls s) h2
       = Some (s', serving ++ [EvStatsClose b], serveError c2 s', h2)
    /\ serving = serveEvents c2 s'
    /\ (forall b', EvStatsClose b' ∉ serving).
Proof.
  intros Hp Hen Hnew Hp2.
  destruct (NewService_run p h c Hp) as (res & Hrun & Hres).
  rewrite Hnew in Hrun. injection Hrun as <- _.
  destruct Hres as (_ & _ & Hc).
  destruct (setup_preserves calls s) as (Hcfg & _ & Hst & _).
  pose proof (constructed_stats _ _ _ Hc) as Hstats.
  unfold afterStatsd in Hstats. rewrite Hen in Hstats.
  cbn [stats withStatsd set_stats] in Hstats.
  eexists. exists (AddHandler (routerHandler (setup calls s)) (setup calls s)).
  eexists.
  split; [exact Hstats|].
  split.
  { rewrite (Run_run (setup calls s) h2 c2).
    - unfold deferred_Close. rewrite Hst, Hstats. reflexivity.
    - by rewrite Hcfg, (constructed_config _ _ _ Hc). }
  split; [reflexivity|].
  intros b' Hin. unfold serveEvents in Hin.
  destruct (Transport_TLS (Transport c2));
    repeat (apply elem_of_cons in Hin as [Hin|Hin]; [discriminate Hin|]);
    by apply elem_of_nil in Hin.
Qed.

(** *** Construction *)

Lemma AddHandlers_run (us : list Handler) (s : service) :
  middleware s = Some (buildMiddleware (handlers s)) ->
  handlers (AddHandlers us s) = handlers s ++ us
  /\ middleware (AddHandlers us s) = Some (buildMiddleware (handlers s ++ us)).
Proof.
  revert s. induction us as [|u us IH]; intros s Hm.
  - simpl. by rewrite app_nil_r.
  - unfold AddHandlers in *. simpl.
    destruct (IH (AddHandler u s)) as [Hh Hmw]; [reflexivity|].
    rewrite Hh, Hmw. cbn [AddHandler handlers set_handlers set_middleware].
    by rewrite <- app_assoc.
Qed.

(** C5: for a configuration c, NewService returns an error, and no service,
    exactly when c.Version.Min < 1 or c.Version.Max < 1; when both are at
    least 1 it returns a service whose third handler is the context handler
    for the range from Min to Max. *)
Theorem NewService_fails_iff_version_below_one
        (p : loc) (h : heap) (c : ServiceConfig) :
  h !! p = Some c ->
  ((exists e h', NewService p h = Some (Err e, h'))
   <-> (Version_Min (Version c) < 1 \/ Version_Max (Version c) < 1))
  /\ (1 <= Version_Min (Version c) /\ 1 <= Version_Max (Version c) ->
      exists s h',
        NewService p h = Some (Ok s, h')
        /\ handlers s !! 2%nat
           = Some (HContext (NewContext (Version_Min (Version c))
                                        (Version_Max (Version c)))))
  /\ (exists res h', NewService p h = Some (res, h')).
Proof.
  intros Hp.
  destruct (NewService_run p h c Hp) as (res & Hrun & Hres).
  split; [split|split].
  - intros (e & h' & He). rewrite He in Hrun. injection Hrun as <- _. exact Hres.
  - intros Hlt. destruct res as [s|e].
    + lia.
    + by exists e, (storeAfter p c h).
  - intros [Hmin Hmax]. destruct res as [s|e]; [|lia].
    exists s, (storeAfter p c h). split; [exact Hrun|].
    destruct Hres as (_ & _ & Hc).
    by rewrite (constructed_handlers _ _ _ Hc).
  - by exists res, (storeAfter p c h).
Qed.

(** C6: a service that NewService has just returned has the handler list
    Bottom, Negotiator, Context, in that order, and its chain is built from
    that list; after any user handlers are added the chain still enters
    Bottom first, whose continuation is the negotiator, whose continuation is
    the context handler, whose continuation is the chain of the user
    handlers. *)
Theorem NewService_default_handler_order
        (p : loc) (h h' : heap) (c : ServiceConfig) (s : service) :
  h !! p = Some c ->
  NewService p h = Some (Ok s, h') ->
  let bottom := NewBottom p (logger s) (service_Stats s) in
  let negotiator :=
    NewNegotiator [ContentTypeJson; ContentTypeXml; ContentTypeHtml] in
  let context := NewContext (Version_Min (Version c)) (Version_Max (Version c)) in
  handlers s = [HBottom bottom; HNegotiator negotiator; HContext context]
  /\ middleware s = Some (buildMiddleware (handlers s))
  /\ forall us : list Handler,
      handlers (AddHandlers us s) = handlers s ++ us
      /\ middleware (AddHandlers us s) = Some (buildMiddleware (handlers s ++ us))
      /\ forall ctx rw r,
          buildMiddleware (handlers s ++ us) ctx rw r
          = Bottom_HandleHTTP bottom ctx rw r
              (fun ctx1 rw1 r1 =>
                 Negotiator_HandleHTTP negotiator ctx1 rw1 r1
                   (fun ctx2 rw2 r2 =>
                      ContextHandler_HandleHTTP context ctx2 rw2 r2
                        (buildMiddleware us))).
Proof.
  intros Hp Hnew. cbv zeta.
  destruct (NewService_run p h c Hp) as (res & Hrun & Hres).
  rewrite Hnew in Hrun. injection Hrun as <- _.
  destruct Hres as (_ & _ & Hc).
  assert (Hh : handlers s
               = [ HBottom (NewBottom p (logger s) (service_Stats s));
                   HNegotiator
                     (NewNegotiator [ContentTypeJson; ContentTypeXml; ContentTypeHtml]);
                   HContext (NewContext (Version_Min (Version c))
                                        (Version_Max (Version c))) ]).
  { rewrite (constructed_handlers _ _ _ Hc), (constructed_logger _ _ _ Hc).
    unfold defaultHandlers, service_Stats.
    by rewrite (constructed_stats _ _ _ Hc). }
  assert (Hm : middleware s = Some (buildMiddleware (handlers s))).
  { by rewrite (constructed_middleware _ _ _ Hc), (constructed_handlers _ _ _ Hc). }
  split; [exact Hh|]. split; [exact Hm|].
  intros us. destruct (AddHandlers_run us s Hm) as [H1 H2].
  split; [exact H1|]. split; [exact H2|].
  intros ctx rw r. rewrite Hh. reflexivity.
Qed.

(** C9: Stats never returns nil.  It returns the buffer held in the stats
    field when there is one and the shared nullStats otherwise; for a
    service built by NewService, at any point of its set-up, that is the
    buffered statsd client created at construction when metrics were
    enabled, and nullStats when they were not. *)
Theorem Stats_never_nil :
  (forall s : service,
      service_Stats s <> None
      /\ (forall b, stats s = Some b -> service_Stats s = Some (BufferStats b))
      /\ (stats s = None -> service_Stats s = Some nullStats))
  /\ (forall (p : loc) (h h' : heap) (c : ServiceConfig) (s : service)
             (calls : list SetupCall),
         h !! p = Some c ->
         NewService p h = Some (Ok s, h') ->
         service_Stats (setup calls s)
         = if Metrics_Enabled (Metrics c)
           then
             let c' := withMetricsDefaults c in
             Some (BufferStats
                     {| buffer_interval := Metrics_Interval (Metrics c');
                        buffer_client :=
                          Some (NewStatsdClient (Metrics_Server (Metrics c'))
                                                (Metrics_Prefix (Metrics c')));
                        buffer_Logger := Some (logger s) |})
           else Some nullStats).
Proof.
  split.
  - intros s. unfold service_Stats.
    destruct (stats s) as [b|]; repeat split; try congruence; done.
  - intros p h h' c s calls Hp Hnew.
    destruct (NewService_run p h c Hp) as (res & Hrun & Hres).
    rewrite Hnew in Hrun. injection Hrun as <- _.
    destruct Hres as (_ & _ & Hc).
    destruct (setup_preserves calls s) as (_ & _ & Hst & _).
    unfold service_Stats. rewrite Hst, (constructed_stats _ _ _ Hc).
    rewrite (constructed_logger _ _ _ Hc).
    unfold afterStatsd. by destruct (Metrics_Enabled (Metrics c)).
Qed.

(** C10: when metrics are enabled, NewService writes the missing metrics
    settings into the caller's configuration cell: an empty Server becomes
    "127.0.0.1:8125", an empty Prefix becomes "%HOST%." and a zero Interval
    becomes two seconds; a Server or Prefix that is not empty and an Interval
    that is not zero stay as they are, as do all other settings and all other
    cells.  The service returned holds the address of that same cell. *)
Theorem NewService_fills_metrics_defaults
        (p : loc) (h : heap) (c : ServiceConfig) :
  h !! p = Some c ->
  Metrics_Enabled (Metrics c) = true ->
  exists (res : result service) (h' : heap) (c' : ServiceConfig),
    NewService p h = Some (res, h')
    /\ h' !! p = Some c'
    /\ Metrics_Server (Metrics c')
       = (if String.eqb (Metrics_Server (Metrics c)) ""
          then "127.0.0.1:8125" else Metrics_Server (Metrics c))
    /\ Metrics_Prefix (Metrics c')
       = (if String.eqb (Metrics_Prefix (Metrics c)) ""
          then "%HOST%." else Metrics_Prefix (Metrics c))
    /\ Metrics_Interval (Metrics c')
       = (if Metrics_Interval (Metrics c) =? 0
          then 2 * 1000000000 else Metrics_Interval (Metrics c))
    /\ Metrics_Enabled (Metrics c') = true
    /\ Addr c' = Addr c /\ Log c' = Log c /\ Schema c' = Schema c
    /\ Transport c' = Transport c /\ Version c' = Version c
    /\ (forall q, q <> p -> h' !! q = h !! q)
    /\ (forall s, res = Ok s -> config s = p).
Proof.
  intros Hp Hen.
  destruct (NewService_run p h c Hp) as (res & Hrun & Hres).
  exists res, (storeAfter p c h), (withMetricsDefaults c).
  split; [exact Hrun|].
  split.
  { rewrite (storeAfter_lookup p c h Hp). unfold configAfter. by rewrite Hen. }
  do 9 (split; [first [reflexivity | exact Hen]|]).
  split.
  - intros q Hq. apply storeAfter_other. congruence.
  - intros s ->. destruct Hres as (_ & _ & Hc). exact (constructed_config _ _ _ Hc).
Qed.

(** Without metrics, [NewService] writes nothing. *)
Lemma NewService_metrics_disabled (p : loc) (h : heap) (c : ServiceConfig) :
  h !! p = Some c ->
  Metrics_Enabled (Metrics c) = false ->
  exists res, NewService p h = Some (res, h).
Proof.
  intros Hp Hen.
  destruct (NewService_run p h c Hp) as (res & Hrun & _).
  exists res. unfold storeAfter in Hrun. by rewrite Hen in Hrun.
Qed.

(** *** The choice among matching bindings *)

Lemma prefers_asym (a b : list bool) : prefers a b = true -> prefers b a = false.
Proof.
  revert b. induction a as [|x a IH]; intros [|y b]; try done.
  cbn. destruct x, y; cbn; try done. all: apply IH.
Qed.

Lemma fold_better_In (r : Request) (rest : list Route) (b : Route) :
  In (fold_left (better r) rest b) (b :: rest).
Proof.
  revert b. induction rest as [|c rest IH]; intros b; [by left|].
  cbn [fold_left]. destruct (IH (better r b c)) as [Heq|Hin].
  - rewrite <- Heq. unfold better.
    destruct (prefers _ _); [right; left | left]; reflexivity.
  - right. right. exact Hin.
Qed.

(** The binding chosen is one of the candidates. *)
Lemma pick_route_In (r : Request) (candidates : list Route) (b : Route) :
  pick_route r candidates = Some b -> In b candidates.
Proof.
  destruct candidates as [|c rest]; [discriminate|].
  cbn. intros Hb. injection Hb as <-. apply fold_better_In.
Qed.

(** Of two candidates the one with the literal segment is chosen, in
    whichever order they were registered. *)
Lemma pick_route_order (r : Request) (a b : Route) :
  prefers (literal_hits (pattern a) (URLPath r))
          (literal_hits (pattern b) (URLPath r)) = true ->
  pick_route r [a; b] = Some a /\ pick_route r [b; a] = Some a.
Proof.
  intros Hp. cbn. unfold better. by rewrite Hp, (prefers_asym _ _ Hp).
Qed.

(** *** Requests that no binding serves *)

Lemma filter_route_nil (f : Route -> bool) (l : list Route) :
  existsb f l = false -> List.filter f l = [].
Proof.
  induction l as [|b l IH]; [done|].
  simpl. intros Hex. apply orb_false_iff in Hex as [Hb Hl].
  rewrite Hb. by apply IH.
Qed.

Lemma no_path_no_route (r : Request) (l : list Route) :
  existsb (route_matches_path r) l = false -> existsb (route_matches r) l = false.
Proof.
  induction l as [|b l IH]; [done|].
  simpl. intros Hex. apply orb_false_iff in Hex as [Hb Hl].
  unfold route_matches at 1. unfold route_matches_path in Hb.
  rewrite Hb, andb_false_r. by apply IH.
Qed.

Lemma NewService_Some_lookup (p : loc) (h : heap) (x : result service * heap) :
  NewService p h = Some x -> exists c, h !! p = Some c.
Proof.
  unfold NewService, bind, deref.
  destruct (h !! p) as [c|]; [by exists c | discriminate].
Qed.

Lemma WriteHeader_fresh (code : Z) (rw : ResponseWriter) :
  rw_status rw = None ->
  rw_status (WriteHeader code rw) = Some code.
Proof. intros Hf. unfold WriteHeader. by rewrite Hf. Qed.

Lemma WriteHeader_keeps (code : Z) (rw : ResponseWriter) :
  rw_header (WriteHeader code rw) = rw_header rw
  /\ rw_body (WriteHeader code rw) = rw_body rw.
Proof. unfold WriteHeader. by destruct (rw_status rw). Qed.

Lemma header_get_Set (k v : string) (rw : ResponseWriter) :
  header_get k (rw_header (Header_Set k v rw)) = Some v.
Proof. cbn. by rewrite String.eqb_refl. Qed.

(** The permitted methods for a path are the methods of the bindings whose
    template matches it. *)
Lemma allowed_methods_spec (rt : Router) (r : Request) (m : string) :
  In m (allowed_methods rt r)
  <-> exists b, In b (routes rt) /\ route_matches_path r b = true /\ method b = m.
Proof.
  unfold allowed_methods. rewrite in_map_iff. split.
  - intros (b & Hm & Hin). apply list_elem_of_In, list_elem_of_filter in Hin as [Hb Hin].
    exists b. split; [by apply list_elem_of_In|]. by split.
  - intros (b & Hin & Hb & Hm). exists b. split; [exact Hm|].
    apply list_elem_of_In, list_elem_of_filter. split; [exact Hb|].
    by apply list_elem_of_In.
Qed.

(** C7: for a service built by NewService, at any point of its set-up, and
    a response not yet begun: a request whose path matches no binding is
    answered with status 404; a request whose path matches a binding, but
    under other methods only, is answered with status 405, and the response
    lists the permitted methods for that path in its Allow header: the
    methods of the bindings whose template matches the path, of which there
    is at least one and none is the request's own. *)
Theorem router_answers_404_and_405_listing_methods
        (p : loc) (h h' : heap) (s : service) (calls : list SetupCall)
        (ctx : Ctx) (rw : ResponseWriter) (r : Request) :
  NewService p h = Some (Ok s, h') ->
  rw_status rw = None ->
  let rt := router (setup calls s) in
  let rw' := Router_HandleHTTP rt ctx rw r in
  (existsb (route_matches_path r) (routes rt) = false ->
   rw_status rw' = Some 404)
  /\ (existsb (route_matches_path r) (routes rt) = true ->
      existsb (route_matches r) (routes rt) = false ->
      rw_status rw' = Some 405
      /\ header_get "Allow" (rw_header rw')
         = Some (String.concat ", " (allowed_methods rt r))
      /\ allowed_methods rt r <> []
      /\ (forall m, In m (allowed_methods rt r)
                    <-> exists b, In b (routes rt)
                                  /\ route_matches_path r b = true
                                  /\ method b = m)
      /\ (forall m, In m (allowed_methods rt r) -> m <> Method r)).
Proof.
  intros Hnew Hfresh. cbv zeta.
  destruct (NewService_Some_lookup p h _ Hnew) as [c Hp].
  destruct (NewService_run p h c Hp) as (res & Hrun & Hres).
  rewrite Hnew in Hrun. injection Hrun as <- _.
  destruct Hres as (_ & _ & Hc).
  destruct (setup_preserves calls s) as (_ & _ & _ & Hnf & Hmna).
  rewrite (constructed_NotFound _ _ _ Hc) in Hnf.
  rewrite (constructed_MethodNotAllowed _ _ _ Hc) in Hmna.
  split.
  - intros Hex. unfold Router_HandleHTTP.
    rewrite (filter_route_nil _ _ (no_path_no_route _ _ Hex)). cbn [pick_route].
    rewrite Hex, Hnf. by apply WriteHeader_fresh.
  - intros Hex Hno. unfold Router_HandleHTTP.
    rewrite (filter_route_nil _ _ Hno). cbn [pick_route].
    rewrite Hex, Hmna. cbv zeta beta.
    split; [by apply WriteHeader_fresh|].
    split.
    { destruct (WriteHeader_keeps StatusMethodNotAllowed
                  (Header_Set "Allow"
                     (String.concat ", " (allowed_methods (router (setup calls s)) r))
                     rw)) as [-> _].
      apply header_get_Set. }
    split.
    { apply existsb_exists in Hex as (b & Hin & Hb).
      intros Hnil.
      assert (Hm : In (method b) (allowed_methods (router (setup calls s)) r)).
      { apply allowed_methods_spec. by exists b. }
      rewrite Hnil in Hm. destruct Hm. }
    split; [intros m; apply allowed_methods_spec|].
    intros m Hm Heq. apply allowed_methods_spec in Hm as (b & Hin & Hb & Hmb).
    assert (Hrb : route_matches r b = true).
    { unfold route_matches. unfold route_matches_path in Hb.
      rewrite Hb, andb_true_r. apply String.eqb_eq. congruence. }
    assert (Hex' : existsb (route_matches r) (routes (router (setup calls s))) = true).
    { apply existsb_exists. by exists b. }
    congruence.
Qed.

End Properties.

(** ** The properties at the concrete setting *)

Import Example.

Lemma NewService_fails_iff_version_below_one_witness :
  store1 configBad !! 1%positive = Some configBad
  /\ (exists e h', @NewService collaborators 1%positive (store1 configBad)
                   = Some (Err e, h'))
  /\ (exists s h', @NewService collaborators 1%positive (store1 config0)
                   = Some (Ok s, h')
                   /\ handlers s !! 2%nat = Some (HContext (NewContext 1 2))).
Proof.
  split; [reflexivity|]. split.
  - destruct (@NewService_fails_iff_version_below_one collaborators
                1%positive (store1 configBad) configBad eq_refl)
      as [[_ Hfail] _].
    apply Hfail. left. vm_compute. reflexivity.
  - destruct (@NewService_fails_iff_version_below_one collaborators
                1%positive (store1 config0) config0 eq_refl)
      as (_ & Hok & _).
    apply Hok. split; vm_compute; discriminate.
Defined.

Lemma NewService_default_handler_order_witness :
  @NewService collaborators 1%positive (store1 config0)
  = Some (Ok (service_of config0), store1 config0)
  /\ map (fun hd => match hd with
                    | HBottom _ => "Bottom"
                    | HNegotiator _ => "Negotiator"
                    | HContext _ => "Context"
                    | HandlerFunc _ => "HandlerFunc"
                    end)
         (handlers (AddHandlers [userHandler] (service_of config0)))
     = ["Bottom"; "Negotiator"; "Context"; "HandlerFunc"].
Proof.
  assert (Hnew : @NewService collaborators 1%positive (store1 config0)
                 = Some (Ok (service_of config0), store1 config0))
    by (vm_compute; reflexivity).
  split; [exact Hnew|].
  destruct (@NewService_default_handler_order collaborators 1%positive
              (store1 config0) (store1 config0) config0 (service_of config0)
              eq_refl Hnew) as (Hh & _ & Hus).
  destruct (Hus [userHandler]) as (-> & _). rewrite Hh. reflexivity.
Defined.

Lemma Run_appends_terminal_router_handler_witness :
  store1 config0 !! config (service_of config0) = Some config0
  /\ exists rh s' evs err,
      Run (service_of config0) (store1 config0) = Some (s', evs, err, store1 config0)
      /\ last (handlers s') = Some rh
      /\ forall next,
          HandleHTTP rh tt freshResponse getGadgets next
          = Router_HandleHTTP (router (service_of config0)) tt freshResponse getGadgets.
Proof.
  split; [vm_compute; reflexivity|].
  destruct (@Run_appends_terminal_router_handler collaborators
              (service_of config0) (store1 config0) config0)
    as (rh & s' & evs & err & Hrun & _ & Hlast & _ & _ & Hrouter & _).
  { vm_compute. reflexivity. }
  exists rh, s', evs, err. split; [exact Hrun|]. split; [exact Hlast|].
  intros next. apply Hrouter.
Defined.

Lemma Run_closes_stats_buffer_witness :
  store1 config1 !! 1%positive = Some config1
  /\ Metrics_Enabled (Metrics config1) = true
  /\ exists b s' serving err h2,
      Run (setup widgets (service_of config1)) h2
      = Some (s', serving ++ [EvStatsClose b], err, h2).
Proof.
  split; [reflexivity|]. split; [reflexivity|].
  destruct (@Run_closes_stats_buffer collaborators 1%positive
              (store1 config1) (storeAfter 1%positive config1 (store1 config1))
              (store1 config0) config1 config0 (service_of config1) widgets)
    as (b & s' & serving & _ & Hrun & _).
  - reflexivity.
  - reflexivity.
  - vm_compute. reflexivity.
  - reflexivity.
  - exists b, s', serving. eexists. eexists. exact Hrun.
Defined.

Lemma Stats_never_nil_witness :
  service_Stats (setup widgets (service_of config0)) = Some nullStats
  /\ service_Stats (service_of config1) <> None.
Proof.
  destruct (@Stats_never_nil collaborators) as [Hany Hbuilt].
  split.
  - apply (Hbuilt 1%positive (store1 config0) (store1 config0) config0
                  (service_of config0) widgets eq_refl).
    vm_compute. reflexivity.
  - apply Hany.
Defined.

Lemma NewService_fills_metrics_defaults_witness :
  store1 config1 !! 1%positive = Some config1
  /\ Metrics_Enabled (Metrics config1) = true
  /\ exists res h' c',
      @NewService collaborators 1%positive (store1 config1) = Some (res, h')
      /\ h' !! 1%positive = Some c'
      /\ Metrics_Server (Metrics c') = "127.0.0.1:8125"
      /\ Metrics_Prefix (Metrics c') = "%HOST%."
      /\ Metrics_Interval (Metrics c') = 2000000000.
Proof.
  split; [reflexivity|]. split; [reflexivity|].
  destruct (@NewService_fills_metrics_defaults collaborators 1%positive
              (store1 config1) config1 eq_refl eq_refl)
    as (res & h' & c' & Hnew & Hcell & Hsv & Hpf & Hiv & _).
  exists res, h', c'. repeat split; assumption.
Defined.

(** Settings that are present stay: [NewService] at [config2]. *)
Lemma NewService_keeps_metrics_settings :
  exists res h' c',
    @NewService collaborators 1%positive (store1 config2) = Some (res, h')
    /\ h' !! 1%positive = Some c'
    /\ Metrics_Server (Metrics c') = "statsd:9125"
    /\ Metrics_Prefix (Metrics c') = "svc."
    /\ Metrics_Interval (Metrics c') = 5000000000.
Proof.
  destruct (NewService_run (H := collaborators) 1%positive (store1 config2) config2
                           eq_refl) as (res & Hnew & _).
  exists res, (storeAfter 1%positive config2 (store1 config2)), config2.
  split; [exact Hnew|]. repeat split; reflexivity.
Qed.

Lemma router_answers_404_and_405_listing_methods_witness :
  @NewService collaborators 1%positive (store1 config0)
  = Some (Ok (service_of config0), store1 config0)
  /\ rw_status freshResponse = None
  /\ rw_status (Router_HandleHTTP (router (setup widgets (service_of config0)))
                                  tt freshResponse getGadgets) = Some 404
  /\ rw_status (Router_HandleHTTP (router (setup widgets (service_of config0)))
                                  tt freshResponse patchWidgets) = Some 405
  /\ header_get "Allow"
       (rw_header (Router_HandleHTTP (router (setup widgets (service_of config0)))
                                     tt freshResponse patchWidgets))
     = Some "GET, POST, DELETE".
Proof.
  assert (Hnew : @NewService collaborators 1%positive (store1 config0)
                 = Some (Ok (service_of config0), store1 config0))
    by (vm_compute; reflexivity).
  split; [exact Hnew|]. split; [reflexivity|]. split.
  - destruct (@router_answers_404_and_405_listing_methods collaborators 1%positive
                (store1 config0) (store1 config0) (service_of config0) widgets
                tt freshResponse getGadgets Hnew eq_refl) as [H404 _].
    apply H404. vm_compute. reflexivity.
  - destruct (@router_answers_404_and_405_listing_methods collaborators 1%positive
                (store1 config0) (store1 config0) (service_of config0) widgets
                tt freshResponse patchWidgets Hnew eq_refl) as [_ H405].
    destruct H405 as (Hst & Hallow & _); [vm_compute; reflexivity..|].
    split; [exact Hst|]. rewrite Hallow. vm_compute. reflexivity.
Defined.

(** ** More on construction, set-up and running *)

Section Construction.

Context `{Collaborators}.

Lemma addSchemaRoutes_exact (s : service) (h : heap) (c : ServiceConfig) :
  h !! config s = Some c ->
  addSchemaRoutes s h
  = Some ({| config := config s; logger := logger s;
             router := {| routes := routes (router s) ++ schemaRoutes c;
                          NotFound := NotFound (router s);
                          MethodNotAllowed := MethodNotAllowed (router s) |};
             statsdClient := statsdClient s; stats := stats s;
             handlers := handlers s; middleware := middleware s;
             schema := Some (NewSchemaHandler (Schema_FilePath (Schema c))
                                              (Schema_FilePattern (Schema c))) |},
          h).
Proof.
  intros Hp. unfold addSchemaRoutes, schemaRoutes.
  rewrite (bind_deref _ _ _ _ Hp).
  destruct (Schema_RootRedirect (Schema c)); unfold ret, set_router, Router_GET,
    Router_Handle; cbn [router routes NotFound MethodNotAllowed config logger
                        statsdClient stats handlers middleware schema set_schema];
    rewrite <- ?app_assoc; reflexivity.
Qed.

(** The result of [NewService], in full. *)
Lemma NewService_exact (p : loc) (h : heap) (c : ServiceConfig) :
  h !! p = Some c ->
  NewService p h
  = Some (if Version_Min (Version c) <? 1
          then Err "service's minimum API version must be greater than zero"
          else if Version_Max (Version c) <? 1
          then Err "service's maximum API version must be greater than zero"
          else Ok (builtService p c),
          storeAfter p c h).
Proof.
  intros Hp. unfold NewService.
  rewrite (bind_deref _ _ _ _ Hp).
  change (set_router _ (set_router _ _)) with (baseService p c).
  rewrite (bind_eq _ _ _ _ _ (createStatsd_run p c h Hp)).
  pose proof (storeAfter_lookup p c h Hp) as Hp'.
  unfold newBottomHandler, newNegotiatorHandler.
  rewrite bind_ret. cbv beta iota.
  rewrite bind_ret. cbv beta iota.
  unfold newContextHandler.
  rewrite afterStatsd_config, afterStatsd_logger.
  rewrite bind_bind, (bind_deref _ _ _ _ Hp'), configAfter_Version.
  destruct (Version_Min (Version c) <? 1); [reflexivity|].
  rewrite bind_bind, (bind_deref _ _ _ _ Hp'), configAfter_Version.
  destruct (Version_Max (Version c) <? 1); [reflexivity|].
  rewrite bind_bind, (bind_deref _ _ _ _ Hp').
  rewrite bind_ret. cbv beta iota.
  rewrite (bind_deref _ _ _ _ Hp'), !configAfter_Version, configAfter_Schema.
  fold (defaultHandlers p c).
  unfold builtService.
  destruct (Schema_Enabled (Schema c)) eqn:Hse.
  - match goal with
    | |- context [bind (addSchemaRoutes ?s0) _ _] =>
        rewrite (bind_eq _ _ _ _ _
                   (addSchemaRoutes_exact s0 (storeAfter p c h) (configAfter c)
                      ltac:(simpl; by rewrite afterStatsd_config)))
    end.
    unfold ret. cbn [config logger router statsdClient stats handlers middleware
                     set_handlers set_middleware routes NotFound MethodNotAllowed].
    rewrite afterStatsd_config, afterStatsd_logger, afterStatsd_router.
    unfold schemaRoutes. rewrite !configAfter_Schema, !configAfter_Version.
    reflexivity.
  - rewrite bind_ret. unfold ret.
    unfold set_middleware, set_handlers.
    cbn [config logger router statsdClient stats handlers middleware schema].
    rewrite afterStatsd_config, afterStatsd_logger, afterStatsd_router.
    assert (Hsch : schema (afterStatsd p c) = None).
    { unfold afterStatsd. by destruct (Metrics_Enabled (Metrics c)). }
    rewrite Hsch. reflexivity.
Qed.

(** X1: the version checks run in order, the minimum first: a minimum
    below one gives the error about the minimum whatever the maximum is, and
    the error about the maximum is given only when the minimum passed. *)
Theorem NewService_error_messages (p : loc) (h : heap) (c : ServiceConfig) :
  h !! p = Some c ->
  (Version_Min (Version c) < 1 ->
   exists h',
     NewService p h
     = Some (Err "service's minimum API version must be greater than zero", h'))
  /\ (1 <= Version_Min (Version c) -> Version_Max (Version c) < 1 ->
      exists h',
        NewService p h
        = Some (Err "service's maximum API version must be greater than zero", h')).
Proof.
  intros Hp. rewrite (NewService_exact p h c Hp). split.
  - intros Hmin. exists (storeAfter p c h).
    destruct (Z.ltb_spec (Version_Min (Version c)) 1); [reflexivity|lia].
  - intros Hmin Hmax. exists (storeAfter p c h).
    destruct (Z.ltb_spec (Version_Min (Version c)) 1); [lia|].
    destruct (Z.ltb_spec (Version_Max (Version c)) 1); [reflexivity|lia].
Qed.

(** X2: with metrics disabled NewService writes nothing to the store and
    the service it returns has neither a statsd client nor a stats buffer. *)
Theorem NewService_without_metrics (p : loc) (h : heap) (c : ServiceConfig) :
  h !! p = Some c ->
  Metrics_Enabled (Metrics c) = false ->
  exists res,
    NewService p h = Some (res, h)
    /\ forall s, res = Ok s -> statsdClient s = None /\ stats s = None.
Proof.
  intros Hp Hen. rewrite (NewService_exact p h c Hp).
  eexists. split.
  - unfold storeAfter. rewrite Hen. reflexivity.
  - intros s Hs.
    destruct (Version_Min (Version c) <? 1); [discriminate Hs|].
    destruct (Version_Max (Version c) <? 1); [discriminate Hs|].
    injection Hs as <-. unfold builtService, afterStatsd. rewrite Hen.
    split; reflexivity.
Qed.

(** X3: a service built with the schema disabled has no routes and no
    schema handler.  With the schema enabled it has the schema handler for
    the configured file path and pattern, and NewService has registered
    exactly these GET routes, in order: the versioned schema path under
    UriPath, served by the schema handler; UriPath itself, which redirects
    with status 307 to UriPath joined with "v" and the maximum version, both
    as read at construction; and, only when RootRedirect is set, "/". *)
Theorem NewService_schema_routes
        (p : loc) (h h' : heap) (c : ServiceConfig) (s : service) :
  h !! p = Some c ->
  NewService p h = Some (Ok s, h') ->
  (Schema_Enabled (Schema c) = false ->
   routes (router s) = [] /\ schema s = None)
  /\ (Schema_Enabled (Schema c) = true ->
      schema s = Some (NewSchemaHandler (Schema_FilePath (Schema c))
                                        (Schema_FilePattern (Schema c)))
      /\ map (fun b => (method b, pattern b)) (routes (router s))
         = [ ("GET", path_Join (Schema_UriPath (Schema c)) "/v:version");
             ("GET", Schema_UriPath (Schema c)) ]
           ++ (if Schema_RootRedirect (Schema c) then [("GET", "/")] else [])
      /\ (forall b ctx rw r,
            routes (router s) !! 0%nat = Some b ->
            serveHandle (handle b) ctx rw r
            = SchemaHandler_ServeHTTP
                (NewSchemaHandler (Schema_FilePath (Schema c))
                                  (Schema_FilePattern (Schema c))) ctx rw r)
      /\ (forall b ctx rw r,
            routes (router s) !! 1%nat = Some b ->
            serveHandle (handle b) ctx rw r
            = http_Redirect rw r
                (path_Join (Schema_UriPath (Schema c))
                           ("v" +:+ pretty (Version_Max (Version c)))) 307)).
Proof.
  intros Hp Hnew. rewrite (NewService_exact p h c Hp) in Hnew.
  destruct (Version_Min (Version c) <? 1); [discriminate Hnew|].
  destruct (Version_Max (Version c) <? 1); [discriminate Hnew|].
  injection Hnew as <- _. unfold builtService. cbn [router routes schema].
  split; intros ->; [by split|].
  split; [reflexivity|].
  unfold schemaRoutes.
  split; [by destruct (Schema_RootRedirect (Schema c))|].
  split.
  - intros b ctx rw r Hb. injection Hb as <-. reflexivity.
  - intros b ctx rw r Hb. injection Hb as <-. reflexivity.
Qed.

Lemma withMetricsDefaults_idem (c : ServiceConfig) :
  withMetricsDefaults (withMetricsDefaults c) = withMetricsDefaults c.
Proof.
  destruct c as [a l [en sv pf iv] sc tr ve].
  unfold withMetricsDefaults; cbn.
  destruct (String.eqb sv "") eqn:Hsv; cbn; rewrite ?Hsv;
    destruct (String.eqb pf "") eqn:Hpf; cbn; rewrite ?Hpf;
    destruct (iv =? 0) eqn:Hiv; cbn; rewrite ?Hiv; reflexivity.
Qed.

Lemma configAfter_idem (c : ServiceConfig) :
  configAfter (configAfter c) = configAfter c.
Proof.
  unfold configAfter. destruct (Metrics_Enabled (Metrics c)) eqn:Hen.
  - cbn. rewrite Hen. apply withMetricsDefaults_idem.
  - by rewrite Hen.
Qed.

Lemma builtService_configAfter (p : loc) (c : ServiceConfig) :
  builtService p (configAfter c) = builtService p c.
Proof.
  unfold configAfter. destruct (Metrics_Enabled (Metrics c)) eqn:Hen; [|reflexivity].
  unfold builtService, defaultHandlers, afterStatsd, schemaRoutes, withStatsd,
    baseService.
  rewrite !withMetricsDefaults_idem.
  change (Metrics_Enabled (Metrics (withMetricsDefaults c)))
    with (Metrics_Enabled (Metrics c)).
  rewrite Hen. reflexivity.
Qed.

(** X4: construction is repeatable.  Calling NewService again with the same
    pointer, on the store the first call left, returns the same result and
    changes nothing more: the defaults written the first time are kept. *)
Theorem NewService_repeatable
        (p : loc) (h h' : heap) (c : ServiceConfig) (res : result service) :
  h !! p = Some c ->
  NewService p h = Some (res, h') ->
  NewService p h' = Some (res, h').
Proof.
  intros Hp Hnew. rewrite (NewService_exact p h c Hp) in Hnew.
  injection Hnew as <- <-.
  rewrite (NewService_exact p _ _ (storeAfter_lookup p c h Hp)).
  rewrite builtService_configAfter, !configAfter_Version.
  f_equal. f_equal.
  unfold storeAfter at 1. unfold configAfter.
  destruct (Metrics_Enabled (Metrics c)) eqn:Hen.
  - cbn. rewrite Hen, withMetricsDefaults_idem.
    unfold storeAfter. rewrite Hen. by rewrite insert_insert_eq.
  - by rewrite Hen.
Qed.

End Construction.

Lemma AddSingletonResource_registers_three_routes
      `{Collaborators} (basePath : string) (r : Resource) (s : service) :
  exists added,
    routes (router (AddSingletonResource basePath r s)) = routes (router s) ++ added
    /\ length added = 3%nat.
Proof.
  eexists. split; [|shelve].
  unfold AddSingletonResource, addGetRoute, addUpdateRoute, addActionRoute,
    Router_GET, Router_POST, Router_PUT.
  cbn [router set_router].
  rewrite !Router_Handle_routes, <- !app_assoc. reflexivity.
  Unshelve. reflexivity.
Qed.

Lemma AddCollectionResource_registers_seven_routes
      `{Collaborators} (basePath : string) (r : Resource) (s : service) :
  exists added,
    routes (router (AddCollectionResource basePath r s)) = routes (router s) ++ added
    /\ length added = 7%nat.
Proof.
  eexists. split; [|shelve].
  unfold AddCollectionResource, addListRoute, addGetRoute, addCreateRoute,
    addUpdateRoute, addDeleteRoute, addActionRoute,
    Router_GET, Router_POST, Router_PUT, Router_DELETE.
  cbn [router set_router].
  rewrite !Router_Handle_routes, <- !app_assoc. reflexivity.
  Unshelve. reflexivity.
Qed.

Section SetUpAndRun.

Context `{Collaborators}.

(** X5: adding a handler and registering a resource are independent: in
    either order they leave the same service. *)
Theorem AddHandler_commutes_with_registration
        (hd : Handler) (basePath : string) (r : Resource) (s : service) :
  AddHandler hd (AddCollectionResource basePath r s)
  = AddCollectionResource basePath r (AddHandler hd s)
  /\ AddHandler hd (AddSingletonResource basePath r s)
     = AddSingletonResource basePath r (AddHandler hd s).
Proof. split; reflexivity. Qed.

Lemma setup_cons (call : SetupCall) (calls : list SetupCall) (s : service) :
  setup (call :: calls) s = setup calls (setup_step s call).
Proof. reflexivity. Qed.

Lemma setup_step_routes (s : service) (call : SetupCall) :
  exists added,
    routes (router (setup_step s call)) = routes (router s) ++ added
    /\ length added = setup_route_count [call].
Proof.
  destruct call as [hd|bp r|bp r]; cbn [setup_step].
  - exists []. split; [by rewrite app_nil_r|reflexivity].
  - destruct (AddSingletonResource_registers_three_routes bp r s) as [added [-> Hl]].
    by exists added.
  - destruct (AddCollectionResource_registers_seven_routes bp r s) as [added [-> Hl]].
    by exists added.
Qed.

(** What a sequence of set-up calls adds to the handlers and the routes. *)
Lemma setup_accumulates (calls : list SetupCall) (s : service) :
  handlers (setup calls s) = handlers s ++ setup_handlers calls
  /\ length (routes (router (setup calls s)))
     = (length (routes (router s)) + setup_route_count calls)%nat
  /\ take (length (routes (router s))) (routes (router (setup calls s)))
     = routes (router s).
Proof.
  revert s. induction calls as [|call calls IH]; intros s.
  - cbn. rewrite !app_nil_r, Nat.add_0_r. split; [done|]. split; [done|].
    by rewrite firstn_all.
  - rewrite setup_cons.
    destruct (IH (setup_step s call)) as (Hh & Hl & Ht).
    destruct (setup_step_routes s call) as (added & Hr & Hadd).
    split; [|split].
    + rewrite Hh. destruct call; cbn; try reflexivity.
      by rewrite <- app_assoc.
    + rewrite Hl, Hr, length_app, Hadd.
      destruct call; cbn; lia.
    + rewrite Hr in Ht.
      transitivity (take (length (routes (router s))) (routes (router s) ++ added));
        [|apply take_app_length].
      rewrite <- Ht, take_take. f_equal. rewrite length_app. lia.
Qed.

(** X6: over any sequence of set-up calls the handler list grows by exactly
    the handlers passed to AddHandler, in call order, behind the ones already
    there; the configuration pointer, the logger, the statsd client, the stats
    buffer and the schema handler stay as they were, and so does the chain
    when no handler is added. *)
Theorem setup_handlers_in_call_order (calls : list SetupCall) (s : service) :
  handlers (setup calls s) = handlers s ++ setup_handlers calls
  /\ config (setup calls s) = config s
  /\ logger (setup calls s) = logger s
  /\ statsdClient (setup calls s) = statsdClient s
  /\ stats (setup calls s) = stats s
  /\ schema (setup calls s) = schema s
  /\ (setup_handlers calls = [] -> middleware (setup calls s) = middleware s).
Proof.
  revert s. induction calls as [|call calls IH]; intros s.
  - cbn. rewrite app_nil_r. repeat split; reflexivity.
  - rewrite setup_cons.
    destruct (IH (setup_step s call)) as (Hh & Hc & Hl & Hsc & Hst & Hsch & Hm).
    rewrite Hh, Hc, Hl, Hsc, Hst, Hsch.
    destruct call as [hd|bp r|bp r]; cbn [setup_step setup_handlers].
    + cbn. rewrite <- app_assoc. repeat split; try reflexivity. discriminate.
    + repeat split; try reflexivity. intros Hnil. exact (Hm Hnil).
    + repeat split; try reflexivity. intros Hnil. exact (Hm Hnil).
Qed.

(** X7: from construction on, set-up keeps the chain in step with the
    handler list: after any set-up calls the middleware is the chain built
    from the current handlers, which are the three default handlers followed
    by the added ones. *)
Theorem setup_keeps_chain_in_step
        (p : loc) (h h' : heap) (s : service) (calls : list SetupCall) :
  NewService p h = Some (Ok s, h') ->
  middleware (setup calls s) = Some (buildMiddleware (handlers (setup calls s)))
  /\ handlers (setup calls s) = handlers s ++ setup_handlers calls
  /\ length (handlers s) = 3%nat.
Proof.
  intros Hnew.
  destruct (NewService_Some_lookup p h _ Hnew) as [c Hp].
  destruct (NewService_run p h c Hp) as (res & Hrun & Hres).
  rewrite Hnew in Hrun. injection Hrun as <- _.
  destruct Hres as (_ & _ & Hc).
  assert (Hm : middleware s = Some (buildMiddleware (handlers s))).
  { by rewrite (constructed_middleware _ _ _ Hc), (constructed_handlers _ _ _ Hc). }
  split; [|split].
  - clear Hc Hnew. revert s Hm.
    induction calls as [|call calls IH]; intros s Hm; [exact Hm|].
    rewrite setup_cons. apply IH. destruct call; [reflexivity|exact Hm..].
  - apply setup_accumulates.
  - by rewrite (constructed_handlers _ _ _ Hc).
Qed.

(** X8: a service without a stats buffer closes nothing: Run does exactly
    two things, the log line and the serve call, and returns what the serve
    call returned. *)
Theorem Run_without_stats (s : service) (h : heap) (c : ServiceConfig) :
  h !! config s = Some c ->
  stats s = None ->
  exists (s' : service) (evs : list Event),
    Run s h = Some (s', evs, serveError c s', h)
    /\ evs = serveEvents c s'
    /\ length evs = 2%nat
    /\ forall b, EvStatsClose b ∉ evs.
Proof.
  intros Hp Hst. eexists. eexists.
  split.
  { rewrite (Run_run s h c Hp). unfold deferred_Close. rewrite Hst, app_nil_r.
    reflexivity. }
  split; [reflexivity|].
  unfold serveEvents. destruct (Transport_TLS (Transport c)).
  - split; [reflexivity|]. intros b Hin.
    repeat (apply elem_of_cons in Hin as [Hin|Hin]; [discriminate Hin|]).
    by apply elem_of_nil in Hin.
  - split; [reflexivity|]. intros b Hin.
    repeat (apply elem_of_cons in Hin as [Hin|Hin]; [discriminate Hin|]).
    by apply elem_of_nil in Hin.
Qed.

(** X9: the Bottom handler made at construction holds the same stats
    value, logger and configuration pointer that the service's Stats, Logger
    and Config methods return, at any point of the set-up. *)
Theorem Bottom_shares_service_state
        (p : loc) (h h' : heap) (s : service) (calls : list SetupCall) :
  NewService p h = Some (Ok s, h') ->
  exists b : Bottom,
    handlers (setup calls s) !! 0%nat = Some (HBottom b)
    /\ bottom_stats b = service_Stats (setup calls s)
    /\ bottom_logger b = service_Logger (setup calls s)
    /\ bottom_config b = service_Config (setup calls s).
Proof.
  intros Hnew.
  destruct (NewService_Some_lookup p h _ Hnew) as [c Hp].
  destruct (NewService_run p h c Hp) as (res & Hrun & Hres).
  rewrite Hnew in Hrun. injection Hrun as <- _.
  destruct Hres as (_ & _ & Hc).
  destruct (setup_accumulates calls s) as (Hh & _).
  destruct (setup_preserves calls s) as (Hcfg & Hlog & Hst & _).
  eexists. split.
  { rewrite Hh, (constructed_handlers _ _ _ Hc). reflexivity. }
  unfold service_Stats, service_Logger, service_Config.
  rewrite Hcfg, Hlog, Hst.
  rewrite (constructed_config _ _ _ Hc), (constructed_logger _ _ _ Hc),
    (constructed_stats _ _ _ Hc).
  repeat split; reflexivity.
Qed.

End SetUpAndRun.

(** * Properties of the datastore *)

Section DynamoParamsProperties.

Import Datastore.

Lemma param_insert (params : gmap string string) (k k' v : string) :
  param (<[k := v]> params) k' = if bool_decide (k = k') then v else param params k'.
Proof.
  unfold param. case_bool_decide as Hk.
  - subst. by rewrite lookup_insert_eq.
  - by rewrite lookup_insert_ne.
Qed.

Lemma param_delete (params : gmap string string) (k k' : string) :
  param (delete k params) k' = if bool_decide (k = k') then "" else param params k'.
Proof.
  unfold param. case_bool_decide as Hk.
  - subst. by rewrite lookup_delete_eq.
  - by rewrite lookup_delete_ne.
Qed.

(** X10: NewDynamoParams succeeds exactly when the map gives a non-empty
    "region" and a non-empty "table_name"; the parameters then hold the four
    values read from the map, where a missing "access_key" or "secret_key"
    reads as the empty string and is accepted. *)
Theorem NewDynamoParams_succeeds_iff (params : gmap string string) (p : DynamoParams) :
  NewDynamoParams params = Ok p
  <-> (param params "region" <> ""
       /\ param params "table_name" <> ""
       /\ p = {| Region := param params "region";
                 TableName := param params "table_name";
                 AccessKey := param params "access_key";
                 SecretKey := param params "secret_key" |}).
Proof.
  unfold NewDynamoParams. cbn [Region TableName].
  destruct (String.eqb_spec (param params "region") "") as [Hr|Hr];
    [|destruct (String.eqb_spec (param params "table_name") "") as [Ht|Ht]].
  - split; [discriminate|]. intros (Hne & _). by destruct Hne.
  - split; [discriminate|]. intros (_ & Hne & _). by destruct Hne.
  - split.
    + intros Hok. injection Hok as <-. done.
    + intros (_ & _ & ->). reflexivity.
Qed.

(** X11: the region is checked first.  A missing or empty "region" gives
    the error about the region, whatever else the map holds; the error about
    the table name is given only when the region is present. *)
Theorem NewDynamoParams_errors (params : gmap string string) :
  (param params "region" = "" ->
   NewDynamoParams params = Err "DynamoDB providers require a 'region' parameter")
  /\ (param params "region" <> "" -> param params "table_name" = "" ->
      NewDynamoParams params
      = Err "DynamoDB providers require a 'table_name' parameter").
Proof.
  unfold NewDynamoParams. cbn [Region TableName]. split.
  - intros ->. reflexivity.
  - intros Hr ->. by destruct (String.eqb_spec (param params "region") "").
Qed.

(** X12: keys other than the four that are read do not matter: adding or
    removing one leaves the result as it was. *)
Theorem NewDynamoParams_ignores_other_keys
        (params : gmap string string) (k v : string) :
  k <> "region" -> k <> "table_name" -> k <> "access_key" -> k <> "secret_key" ->
  NewDynamoParams (<[k := v]> params) = NewDynamoParams params
  /\ NewDynamoParams (delete k params) = NewDynamoParams params.
Proof.
  intros H1 H2 H3 H4. unfold NewDynamoParams.
  rewrite !param_insert, !param_delete.
  rewrite !bool_decide_eq_false_2 by done. done.
Qed.

(** X13: a key bound to the empty string counts as a missing key: binding
    any key to "" gives the same result as removing it. *)
Theorem NewDynamoParams_empty_is_missing (params : gmap string string) (k : string) :
  NewDynamoParams (<[k := ""]> params) = NewDynamoParams (delete k params).
Proof.
  unfold NewDynamoParams. by rewrite !param_insert, !param_delete.
Qed.

End DynamoParamsProperties.

Section DynamoTableProperties.

Import Datastore.

Context `{Backend}.

Lemma counter_Inc (m : gmap Labels nat) (l l' : Labels) :
  counter (<[l := S (counter m l)]> m) l'
  = (counter m l' + if bool_decide (l' = l) then 1 else 0)%nat.
Proof.
  unfold counter at 1. case_bool_decide as Hl.
  - subst. rewrite lookup_insert_eq. cbn. lia.
  - rewrite lookup_insert_ne by done. fold (counter m l'). lia.
Qed.

Lemma handleError_world (t : DynamoTable) (op : string) (e : GoError) (w : World) :
  env (handleError t op e w) = env w
  /\ dynamoErrors (handleError t op e w) = dynamoErrors w
  /\ dynamoOpLatencies (handleError t op e w) = dynamoOpLatencies w
  /\ spans (handleError t op e w) = spans w
  /\ (exists entry, logs (handleError t op e w) = logs w ++ [entry])
  /\ (forall l, counter (dynamoOps (handleError t op e w)) l
                = (counter (dynamoOps w) l + error_count t (Some e) l)%nat).
Proof.
  unfold handleError, error_count.
  destruct (asDynamoError e) as [d|]; cbn.
  - repeat split; try reflexivity; [by eexists|].
    intros l. apply counter_Inc.
  - repeat split; try reflexivity; [by eexists|].
    intros l. lia.
Qed.

Lemma op_world_facts (t : DynamoTable) (op : string)
      (s : option (gmap string SpanValue)) (latency : Z)
      (e : Env) (ret : option GoError) (w : World) :
  let w' := op_world t op s latency e ret w in
  env w' = e
  /\ dynamoErrors w' = dynamoErrors w
  /\ dynamoOpLatencies w' = dynamoOpLatencies w ++ [(labels t op, latency)]
  /\ spans w' = spans w ++ match s with Some data => [data] | None => [] end
  /\ length (logs w')
     = (length (logs w) + match ret with Some _ => 1 | None => 0 end)%nat
  /\ (forall l, counter (dynamoOps w') l
                = (counter (dynamoOps w) l
                   + (if bool_decide (l = labels t op) then 1 else 0)
                   + error_count t ret l)%nat).
Proof.
  cbv zeta. unfold op_world.
  set (w1 := count_and_time t op latency (span_done s (set_env e w))).
  assert (H1 : env w1 = e
               /\ dynamoErrors w1 = dynamoErrors w
               /\ dynamoOpLatencies w1 = dynamoOpLatencies w ++ [(labels t op, latency)]
               /\ spans w1 = spans w ++ match s with Some data => [data] | None => [] end
               /\ logs w1 = logs w
               /\ (forall l, counter (dynamoOps w1) l
                             = (counter (dynamoOps w) l
                                + if bool_decide (l = labels t op) then 1 else 0)%nat)).
  { unfold w1, count_and_time. destruct s as [data|]; cbn;
      repeat split; try reflexivity; try (by rewrite app_nil_r);
      intros l; apply counter_Inc. }
  destruct H1 as (He & Hde & Hlat & Hsp & Hlog & Hcnt).
  destruct ret as [err|].
  - destruct (handleError_world t op err w1) as (He' & Hde' & Hlat' & Hsp' & [entry Hlog'] & Hcnt').
    rewrite He', Hde', Hlat', Hsp', Hlog', length_app, Hlog.
    do 4 (split; [assumption|]). split; [cbn; lia|].
    intros l. rewrite Hcnt', Hcnt. lia.
  - rewrite Hlog. do 4 (split; [assumption|]). split; [lia|].
    intros l. rewrite Hcnt. cbn. lia.
Qed.

(** Every operation leaves the world that [op_world] describes. *)
Lemma call_run_shape (t : DynamoTable) (c : Call) (w : World) :
  exists s latency e,
    snd (call_run t c w)
    = op_world t (call_op c) s latency e (fst (call_run t c w)) w.
Proof.
  destruct c; cbn [call_run call_op];
    unfold GetItem, PutItem, UpdateItem, DeleteItem, Scan, QueryOnIndex;
    destruct (trace_Continue DYNAMODB_PROVIDER (DynamoTable_String t) (env w))
      as [s e1];
    cbn [env set_env].
  - destruct (res_err _) as [err|]; [case_bool_decide|];
      cbn [fst snd]; do 3 eexists; reflexivity.
  - destruct (res_err _) as [err|]; cbn [fst snd]; do 3 eexists; reflexivity.
  - destruct (res_err _) as [err|]; cbn [fst snd]; do 3 eexists; reflexivity.
  - destruct (res_err _) as [err|]; [case_bool_decide|];
      cbn [fst snd]; do 3 eexists; reflexivity.
  - destruct (res_err _) as [err|]; cbn [fst snd]; do 3 eexists; reflexivity.
  - destruct (res_err _) as [err|]; cbn [fst snd]; do 3 eexists; reflexivity.
Qed.

(** X14: GetItem reports found-ness through ok.  When the table call
    gives no error, ok is true and the error nil; when it gives ErrNotFound,
    ok is false, the error is nil and nothing is logged; any other error is
    returned as it is, with ok false, and logged once.  The attributes are
    those the table call gave, in every case. *)
Theorem GetItem_result (t : DynamoTable) (id : string) (w : World) :
  let out := Table_GetItem (dt_Table t) {| HashKey := id; RangeKey := "" |}
               (snd (trace_Continue DYNAMODB_PROVIDER (DynamoTable_String t) (env w))) in
  (res_err out = None ->
   exists w', GetItem t id w = (res_val out, true, None, w') /\ logs w' = logs w)
  /\ (res_err out = Some ErrNotFound ->
      exists w', GetItem t id w = (res_val out, false, None, w') /\ logs w' = logs w)
  /\ (forall e, res_err out = Some e -> e <> ErrNotFound ->
      exists w' entry,
        GetItem t id w = (res_val out, false, Some e, w')
        /\ logs w' = logs w ++ [entry]).
Proof.
  cbv zeta. unfold GetItem.
  destruct (trace_Continue DYNAMODB_PROVIDER (DynamoTable_String t) (env w))
    as [s e1]. cbn [snd env set_env].
  split; [|split].
  - intros ->. eexists. split; [reflexivity|]. by destruct s.
  - intros ->. rewrite bool_decide_eq_true_2 by done.
    eexists. split; [reflexivity|]. by destruct s.
  - intros e -> Hne. rewrite bool_decide_eq_false_2 by done.
    match goal with
    | |- context [handleError t ?op e ?w1] =>
        destruct (handleError_world t op e w1) as (_ & _ & _ & _ & [entry Hlog] & _)
    end.
    eexists. exists entry. split; [reflexivity|].
    rewrite Hlog. by destruct s.
Qed.

(** X15: DeleteItem does the same: ok is true exactly when the table call
    gave no error; ErrNotFound becomes ok false with a nil error and no log
    entry; any other error is returned and logged once. *)
Theorem DeleteItem_result (t : DynamoTable) (id : string) (w : World) :
  let out := Table_DeleteItem (dt_Table t) {| HashKey := id; RangeKey := "" |}
               (snd (trace_Continue DYNAMODB_PROVIDER (DynamoTable_String t) (env w))) in
  (res_err out = None ->
   exists w', DeleteItem t id w = (true, None, w') /\ logs w' = logs w)
  /\ (res_err out = Some ErrNotFound ->
      exists w', DeleteItem t id w = (false, None, w') /\ logs w' = logs w)
  /\ (forall e, res_err out = Some e -> e <> ErrNotFound ->
      exists w' entry,
        DeleteItem t id w = (false, Some e, w')
        /\ logs w' = logs w ++ [entry]).
Proof.
  cbv zeta. unfold DeleteItem.
  destruct (trace_Continue DYNAMODB_PROVIDER (DynamoTable_String t) (env w))
    as [s e1]. cbn [snd env set_env].
  split; [|split].
  - intros ->. eexists. split; [reflexivity|]. by destruct s.
  - intros ->. rewrite bool_decide_eq_true_2 by done.
    eexists. split; [reflexivity|]. by destruct s.
  - intros e -> Hne. rewrite bool_decide_eq_false_2 by done.
    match goal with
    | |- context [handleError t ?op e ?w1] =>
        destruct (handleError_world t op e w1) as (_ & _ & _ & _ & [entry Hlog] & _)
    end.
    eexists. exists entry. split; [reflexivity|].
    rewrite Hlog. by destruct s.
Qed.

(** X16: PutItem and UpdateItem make the plain table call when condAttrs is
    empty and the conditional one otherwise, and return that call's error as
    it is: unlike GetItem and DeleteItem they do not set ErrNotFound apart. *)
Theorem PutItem_UpdateItem_result
        (t : DynamoTable) (id : string) (attrs condAttrs : list Attribute) (w : World) :
  let e1 := snd (trace_Continue DYNAMODB_PROVIDER (DynamoTable_String t) (env w)) in
  let key := {| HashKey := id; RangeKey := "" |} in
  let put := match condAttrs with
             | [] => Table_PutItem (dt_Table t) id "" attrs e1
             | _ :: _ => Table_ConditionalPutItem (dt_Table t) id "" attrs condAttrs e1
             end in
  let upd := match condAttrs with
             | [] => Table_UpdateAttributes (dt_Table t) key attrs e1
             | _ :: _ =>
                 Table_ConditionalUpdateAttributes (dt_Table t) key attrs condAttrs e1
             end in
  fst (PutItem t id attrs condAttrs w) = res_err put
  /\ env (snd (PutItem t id attrs condAttrs w)) = res_env put
  /\ fst (UpdateItem t id attrs condAttrs w) = res_err upd
  /\ env (snd (UpdateItem t id attrs condAttrs w)) = res_env upd.
Proof.
  cbv zeta. unfold PutItem, UpdateItem.
  destruct (trace_Continue DYNAMODB_PROVIDER (DynamoTable_String t) (env w))
    as [s e1]. cbn [snd env set_env].
  destruct condAttrs as [|a condAttrs]; cbn [length bool_decide];
    [rewrite !bool_decide_eq_false_2 by (cbn; lia)
    |rewrite !bool_decide_eq_true_2 by (cbn; lia)].
  - repeat split;
      match goal with
      | |- context [res_err ?o] => destruct (res_err o) as [err|] eqn:He
      end; cbn [fst snd]; try reflexivity;
      try (match goal with
           | |- env (handleError t ?op ?e ?w1) = _ =>
               destruct (handleError_world t op e w1) as (-> & _)
           end);
      by destruct s.
  - repeat split;
      match goal with
      | |- context [res_err ?o] => destruct (res_err o) as [err|] eqn:He
      end; cbn [fst snd]; try reflexivity;
      try (match goal with
           | |- env (handleError t ?op ?e ?w1) = _ =>
               destruct (handleError_world t op e w1) as (-> & _)
           end);
      by destruct s.
Qed.

(** X17: on an error Scan returns no items (nil) with the error, while
    QueryOnIndex returns the error together with whatever items the table
    call gave; without an error both return the table call's items. *)
Theorem Scan_QueryOnIndex_result
        (t : DynamoTable) (comps : list AttributeComparison) (indexName : string)
        (w : World) :
  let e1 := snd (trace_Continue DYNAMODB_PROVIDER (DynamoTable_String t) (env w)) in
  let scan := Table_Scan (dt_Table t) comps e1 in
  let query := Table_QueryOnIndex (dt_Table t) comps indexName e1 in
  fst (Scan t comps w)
  = match res_err scan with
    | Some e => (None, Some e)
    | None => (res_val scan, None)
    end
  /\ fst (QueryOnIndex t comps indexName w) = (res_val query, res_err query).
Proof.
  cbv zeta. unfold Scan, QueryOnIndex.
  destruct (trace_Continue DYNAMODB_PROVIDER (DynamoTable_String t) (env w))
    as [s e1]. cbn [snd env set_env].
  split.
  - by destruct (res_err (Table_Scan _ _ _)).
  - by destruct (res_err (Table_QueryOnIndex _ _ _ _)).
Qed.

(** X18: what one operation does to the metrics and the log.  It adds one
    observation to the latency summary and one to the operation counter,
    both under (region, table, operation); when it returns an error it
    writes one log entry, and when that error is a dynamodb.Error one more
    is added to the operation counter, under the error's code in place of
    the operation.  The error counter is never touched. *)
Theorem call_metrics (t : DynamoTable) (c : Call) (w : World) :
  let r := call_run t c w in
  dynamoErrors (snd r) = dynamoErrors w
  /\ (exists latency,
        dynamoOpLatencies (snd r)
        = dynamoOpLatencies w ++ [(labels t (call_op c), latency)])
  /\ length (logs (snd r))
     = (length (logs w) + match fst r with Some _ => 1 | None => 0 end)%nat
  /\ forall l,
      counter (dynamoOps (snd r)) l
      = (counter (dynamoOps w) l
         + (if bool_decide (l = labels t (call_op c)) then 1 else 0)
         + error_count t (fst r) l)%nat.
Proof.
  cbv zeta. destruct (call_run_shape t c w) as (s & latency & e & ->).
  destruct (op_world_facts t (call_op c) s latency e (fst (call_run t c w)) w)
    as (_ & Hde & Hlat & _ & Hlog & Hcnt).
  split; [exact Hde|]. split; [by exists latency|]. split; [exact Hlog|exact Hcnt].
Qed.

Lemma run_calls_cons (t : DynamoTable) (c : Call) (calls : list Call) (w : World) :
  run_calls t (c :: calls) w = run_calls t calls (snd (call_run t c w)).
Proof. reflexivity. Qed.

(** X19: over any sequence of operations the error counter stays as it
    was, the latency summary gains one observation per operation, labelled
    by the operations in call order, and the log gains one entry per
    operation that returned an error. *)
Theorem run_calls_metrics (t : DynamoTable) (calls : list Call) (w : World) :
  dynamoErrors (run_calls t calls w) = dynamoErrors w
  /\ map fst (dynamoOpLatencies (run_calls t calls w))
     = map fst (dynamoOpLatencies w) ++ map (fun c => labels t (call_op c)) calls
  /\ length (logs (run_calls t calls w))
     = (length (logs w) + errors_returned t calls w)%nat.
Proof.
  revert w. induction calls as [|c calls IH]; intros w.
  - cbn. rewrite app_nil_r. split; [done|]. split; [done|lia].
  - rewrite run_calls_cons.
    destruct (IH (snd (call_run t c w))) as (Hde & Hlat & Hlog).
    destruct (call_metrics t c w) as (Hde1 & [latency Hlat1] & Hlog1 & _).
    split; [by rewrite Hde|]. split.
    + rewrite Hlat, Hlat1, map_app, <- app_assoc. reflexivity.
    + rewrite Hlog, Hlog1. cbn [errors_returned]. lia.
Qed.

(** X20: what one operation leaves in its span.  Without a span nothing
    is recorded.  With one, the span ends with "op" set to the operation's
    label, and its "error" entry is set to the returned error exactly when an
    error is returned: an ErrNotFound that GetItem or DeleteItem turn into a
    nil error leaves the entry as it was. *)
Theorem call_span (t : DynamoTable) (c : Call) (w : World) :
  let r := call_run t c w in
  match fst (trace_Continue DYNAMODB_PROVIDER (DynamoTable_String t) (env w)) with
  | None => spans (snd r) = spans w
  | Some data =>
      exists data',
        spans (snd r) = spans w ++ [data']
        /\ data' !! "op" = Some (SVString (call_op c))
        /\ data' !! "error" = match fst r with
                              | Some e => Some (SVError e)
                              | None => data !! "error"
                              end
  end.
Proof.
  cbv zeta.
  destruct c; cbn [call_run call_op];
    unfold GetItem, PutItem, UpdateItem, DeleteItem, Scan, QueryOnIndex;
    destruct (trace_Continue DYNAMODB_PROVIDER (DynamoTable_String t) (env w))
      as [[data|] e1];
    cbn [fst env set_env];
    match goal with
    | |- context [res_err ?o] => destruct (res_err o) as [err|]
    end;
    unfold not_ErrNotFound;
    try (destruct (decide (err = ErrNotFound)) as [Heq|Hne];
         [rewrite (bool_decide_eq_true_2 (err = ErrNotFound)) by done;
          rewrite ?(bool_decide_eq_false_2 (err <> ErrNotFound)) by (by intros ?)
         |rewrite (bool_decide_eq_false_2 (err = ErrNotFound)) by done;
          rewrite ?(bool_decide_eq_true_2 (err <> ErrNotFound)) by done]);
    cbn [fst snd];
    try match goal with
        | |- context [handleError t ?op ?e ?w1] =>
            destruct (handleError_world t op e w1) as (_ & _ & _ & -> & _)
        end;
    cbn;
    try (rewrite (bool_decide_eq_false_2 (err <> ErrNotFound)) by (by intros ?));
    try (rewrite (bool_decide_eq_true_2 (err <> ErrNotFound)) by done);
    first [ reflexivity
          | by rewrite app_nil_r
          | eexists; split; [reflexivity|]; split; by simplify_map_eq ].
Qed.

(** X21: the log entry for a returned error is written to the table's
    logger and names the provider, the region, the table and the operation.
    For a dynamodb.Error it also carries the status code, the status and the
    error code, and its message is the error's message; for any other error
    it carries none of these and its message is the error's text. *)
Theorem returned_error_is_logged
        (t : DynamoTable) (c : Call) (w : World) (e : GoError) :
  fst (call_run t c w) = Some e ->
  exists entry,
    logs (snd (call_run t c w)) = logs w ++ [entry]
    /\ entry_logger entry = dt_logger t
    /\ entry_fields entry !! "provider" = Some (FString DYNAMODB_PROVIDER)
    /\ entry_fields entry !! "region" = Some (FString (region_name t))
    /\ entry_fields entry !! "table_name" = Some (FString (table_name t))
    /\ entry_fields entry !! "op" = Some (FString (call_op c))
    /\ match asDynamoError e with
       | Some d =>
           entry_fields entry !! "status_code" = Some (FInt (StatusCode d))
           /\ entry_fields entry !! "status" = Some (FString (Status d))
           /\ entry_fields entry !! "code" = Some (FString (Code d))
           /\ entry_message entry = Message d
       | None =>
           entry_fields entry !! "status_code" = None
           /\ entry_fields entry !! "status" = None
           /\ entry_fields entry !! "code" = None
           /\ entry_message entry = Error_string e
       end.
Proof.
  intros Hret.
  destruct (call_run_shape t c w) as (s & latency & e1 & ->).
  rewrite Hret. unfold op_world, handleError.
  destruct (asDynamoError e) as [d|];
    destruct s as [data|]; cbn;
    (eexists; split; [reflexivity|]; repeat split; by simplify_map_eq).
Qed.

End DynamoTableProperties.

(** ** The further properties at the concrete settings *)

Import ExampleSchema Datastore DatastoreExample.

Lemma NewService_error_messages_witness :
  store1 configBad !! 1%positive = Some configBad
  /\ exists h',
      @NewService collaborators 1%positive (store1 configBad)
      = Some (Err "service's minimum API version must be greater than zero", h').
Proof.
  split; [reflexivity|].
  destruct (@NewService_error_messages collaborators 1%positive
              (store1 configBad) configBad eq_refl) as [Hmin _].
  apply Hmin. vm_compute. reflexivity.
Defined.

Lemma NewService_without_metrics_witness :
  store1 config0 !! 1%positive = Some config0
  /\ Metrics_Enabled (Metrics config0) = false
  /\ exists res,
      @NewService collaborators 1%positive (store1 config0)
      = Some (res, store1 config0).
Proof.
  split; [reflexivity|]. split; [reflexivity|].
  destruct (@NewService_without_metrics collaborators 1%positive
              (store1 config0) config0 eq_refl eq_refl) as (res & Hnew & _).
  exists res. exact Hnew.
Defined.

Lemma NewService_schema_routes_witness :
  @NewService collaborators 1%positive (store1 configSchema)
  = Some (Ok (service_of configSchema), store1 configSchema)
  /\ map (fun b => (method b, pattern b)) (routes (router (service_of configSchema)))
     = [("GET", "/schema/v:version"); ("GET", "/schema"); ("GET", "/")].
Proof.
  assert (Hnew : @NewService collaborators 1%positive (store1 configSchema)
                 = Some (Ok (service_of configSchema), store1 configSchema))
    by (vm_compute; reflexivity).
  split; [exact Hnew|].
  destruct (@NewService_schema_routes collaborators 1%positive
              (store1 configSchema) (store1 configSchema) configSchema
              (service_of configSchema) eq_refl Hnew) as [_ Hon].
  destruct (Hon eq_refl) as (_ & Hmap & _). rewrite Hmap. vm_compute. reflexivity.
Defined.

Lemma NewService_repeatable_witness :
  store1 config1 !! 1%positive = Some config1
  /\ @NewService collaborators 1%positive (storeAfter 1%positive config1 (store1 config1))
     = Some (Ok (service_of config1), storeAfter 1%positive config1 (store1 config1)).
Proof.
  split; [reflexivity|].
  apply (@NewService_repeatable collaborators 1%positive (store1 config1)
           (storeAfter 1%positive config1 (store1 config1)) config1
           (Ok (service_of config1)) eq_refl).
  vm_compute. reflexivity.
Defined.

Lemma setup_keeps_chain_in_step_witness :
  @NewService collaborators 1%positive (store1 config0)
  = Some (Ok (service_of config0), store1 config0)
  /\ middleware (setup (CallAddHandler userHandler :: widgets) (service_of config0))
     = Some (buildMiddleware
               (handlers (setup (CallAddHandler userHandler :: widgets)
                                (service_of config0)))).
Proof.
  assert (Hnew : @NewService collaborators 1%positive (store1 config0)
                 = Some (Ok (service_of config0), store1 config0))
    by (vm_compute; reflexivity).
  split; [exact Hnew|].
  apply (@setup_keeps_chain_in_step collaborators 1%positive (store1 config0)
           (store1 config0) (service_of config0)
           (CallAddHandler userHandler :: widgets) Hnew).
Defined.

Lemma Run_without_stats_witness :
  store1 config0 !! config (service_of config0) = Some config0
  /\ stats (service_of config0) = None
  /\ exists s' evs err,
      Run (service_of config0) (store1 config0) = Some (s', evs, err, store1 config0)
      /\ length evs = 2%nat.
Proof.
  split; [vm_compute; reflexivity|]. split; [vm_compute; reflexivity|].
  destruct (@Run_without_stats collaborators (service_of config0)
              (store1 config0) config0)
    as (s' & evs & Hrun & _ & Hlen & _).
  { vm_compute. reflexivity. }
  { vm_compute. reflexivity. }
  exists s', evs. eexists. split; [exact Hrun|exact Hlen].
Defined.

Lemma Bottom_shares_service_state_witness :
  @NewService collaborators 1%positive (store1 config1)
  = Some (Ok (service_of config1), storeAfter 1%positive config1 (store1 config1))
  /\ exists b,
      handlers (setup widgets (service_of config1)) !! 0%nat = Some (HBottom b)
      /\ bottom_stats b = service_Stats (setup widgets (service_of config1)).
Proof.
  assert (Hnew : @NewService collaborators 1%positive (store1 config1)
                 = Some (Ok (service_of config1),
                         storeAfter 1%positive config1 (store1 config1)))
    by (vm_compute; reflexivity).
  split; [exact Hnew|].
  destruct (@Bottom_shares_service_state collaborators 1%positive (store1 config1)
              (storeAfter 1%positive config1 (store1 config1))
              (service_of config1) widgets Hnew) as (b & Hb & Hst & _).
  exists b. split; assumption.
Defined.

Lemma NewDynamoParams_ignores_other_keys_witness :
  NewDynamoParams (<["endpoint" := "http://localhost:8000"]> goodParams)
  = NewDynamoParams goodParams.
Proof.
  apply (NewDynamoParams_ignores_other_keys goodParams "endpoint"
           "http://localhost:8000"); discriminate.
Defined.

Lemma returned_error_is_logged_witness :
  fst (call_run table (CallGetItem "hot") world0) = Some "throttled"
  /\ exists entry,
      logs (snd (call_run table (CallGetItem "hot") world0)) = [entry]
      /\ entry_message entry = "rate exceeded".
Proof.
  assert (Hret : fst (call_run table (CallGetItem "hot") world0) = Some "throttled")
    by (vm_compute; reflexivity).
  split; [exact Hret|].
  destruct (returned_error_is_logged table (CallGetItem "hot") world0 "throttled" Hret)
    as (entry & Hlog & _ & _ & _ & _ & _ & Hd).
  exists entry. split; [exact Hlog|].
  cbn in Hd. destruct Hd as (_ & _ & _ & Hm). exact Hm.
Defined.
